(** * pay.NotifyURLData.CheckAndInit: signature check and field decoding

    A shallow embedding of [src/pay/notify_url_data.go].  Go strings are
    byte sequences and are modelled by [string] (a list of 8-bit
    characters); [[]byte] values are lists of [Z] in [0, 256); Go's [int]
    and [int64] are 64-bit two's-complement integers carried in [Z];
    [url.Values] is a [gmap] from strings to lists of strings, wrapped in
    [option] because the code distinguishes the nil map. *)

From Stdlib Require Import ZArith Lia Ascii String.
From stdpp Require Import gmap strings list sorting.

Local Open Scope string_scope.
Local Open Scope Z_scope.

(** ** Byte strings *)

(** [[]byte(s)]: the bytes of a Go string. *)
Definition byte_of_ascii (c : ascii) : Z := Z.of_N (N_of_ascii c).

Fixpoint bytes_of_string (s : string) : list Z :=
  match s with
  | EmptyString => []
  | String c s' => byte_of_ascii c :: bytes_of_string s'
  end.

(** ** crypto/md5 (RFC 1321), as used through [md5.Sum] *)

Module MD5.

Definition mask32 : Z := 0xffffffff.
Definition add32 (x y : Z) : Z := Z.land (x + y) mask32.
Definition not32 (x : Z) : Z := Z.lxor x mask32.
Definition rotl32 (x : Z) (s : Z) : Z :=
  Z.land (Z.lor (Z.shiftl x s) (Z.shiftr x (32 - s))) mask32.

Definition sines : list Z :=
  [ 0xd76aa478; 0xe8c7b756; 0x242070db; 0xc1bdceee;
    0xf57c0faf; 0x4787c62a; 0xa8304613; 0xfd469501;
    0x698098d8; 0x8b44f7af; 0xffff5bb1; 0x895cd7be;
    0x6b901122; 0xfd987193; 0xa679438e; 0x49b40821;
    0xf61e2562; 0xc040b340; 0x265e5a51; 0xe9b6c7aa;
    0xd62f105d; 0x02441453; 0xd8a1e681; 0xe7d3fbc8;
    0x21e1cde6; 0xc33707d6; 0xf4d50d87; 0x455a14ed;
    0xa9e3e905; 0xfcefa3f8; 0x676f02d9; 0x8d2a4c8a;
    0xfffa3942; 0x8771f681; 0x6d9d6122; 0xfde5380c;
    0xa4beea44; 0x4bdecfa9; 0xf6bb4b60; 0xbebfbc70;
    0x289b7ec6; 0xeaa127fa; 0xd4ef3085; 0x04881d05;
    0xd9d4d039; 0xe6db99e5; 0x1fa27cf8; 0xc4ac5665;
    0xf4292244; 0x432aff97; 0xab9423a7; 0xfc93a039;
    0x655b59c3; 0x8f0ccc92; 0xffeff47d; 0x85845dd1;
    0x6fa87e4f; 0xfe2ce6e0; 0xa3014314; 0x4e0811a1;
    0xf7537e82; 0xbd3af235; 0x2ad7d2bb; 0xeb86d391 ].

Definition shifts : list Z :=
  [ 7; 12; 17; 22; 7; 12; 17; 22; 7; 12; 17; 22; 7; 12; 17; 22;
    5; 9; 14; 20; 5; 9; 14; 20; 5; 9; 14; 20; 5; 9; 14; 20;
    4; 11; 16; 23; 4; 11; 16; 23; 4; 11; 16; 23; 4; 11; 16; 23;
    6; 10; 15; 21; 6; 10; 15; 21; 6; 10; 15; 21; 6; 10; 15; 21 ].

Record state := State { sA : Z; sB : Z; sC : Z; sD : Z }.

Definition init : state :=
  State 0x67452301 0xefcdab89 0x98badcfe 0x10325476.

(** Little-endian decoding of the sixteen 32-bit words of a block. *)
Fixpoint words (n : nat) (bs : list Z) : list Z :=
  match n, bs with
  | Datatypes.S n', b0 :: b1 :: b2 :: b3 :: rest =>
      Z.lor b0 (Z.lor (Z.shiftl b1 8) (Z.lor (Z.shiftl b2 16) (Z.shiftl b3 24)))
        :: words n' rest
  | _, _ => []
  end.

Definition step (M : list Z) (st : state) (i : nat) : state :=
  let '(State a b c d) := st in
  let iz := Z.of_nat i in
  let '(f, g) :=
    if iz <? 16 then (Z.lor (Z.land b c) (Z.land (not32 b) d), iz)
    else if iz <? 32 then
      (Z.lor (Z.land d b) (Z.land (not32 d) c), (5 * iz + 1) mod 16)
    else if iz <? 48 then (Z.lxor b (Z.lxor c d), (3 * iz + 5) mod 16)
    else (Z.lxor c (Z.lor b (not32 d)), (7 * iz) mod 16) in
  let f' := add32 (add32 (add32 f a) (nth i sines 0)) (nth (Z.to_nat g) M 0) in
  State d (add32 b (rotl32 f' (nth i shifts 0))) b c.

Definition block (st : state) (bs : list Z) : state :=
  let '(State a b c d) := fold_left (step (words 16 bs)) (seq 0 64) st in
  State (add32 (sA st) a) (add32 (sB st) b) (add32 (sC st) c) (add32 (sD st) d).

Definition le_bytes (n : nat) (x : Z) : list Z :=
  map (fun i => Z.land (Z.shiftr x (8 * Z.of_nat i)) 0xff) (seq 0 n).

Definition pad (msg : list Z) : list Z :=
  let len := Z.of_nat (length msg) in
  msg ++ [0x80] ++ repeat 0 (Z.to_nat ((55 - len) mod 64))
      ++ le_bytes 8 (Z.land (8 * len) 0xffffffffffffffff).

Fixpoint blocks (n : nat) (bs : list Z) : list (list Z) :=
  match n with
  | O => []
  | Datatypes.S n' => take 64 bs :: blocks n' (drop 64 bs)
  end.

(** [md5.Sum(data)]: the 16-byte digest. *)
Definition Sum (data : list Z) : list Z :=
  let p := pad data in
  let '(State a b c d) := fold_left block (blocks (length p / 64) p) init in
  le_bytes 4 a ++ le_bytes 4 b ++ le_bytes 4 c ++ le_bytes 4 d.

End MD5.

(** ** encoding/hex and bytes.ToUpper *)

(** [hextable = "0123456789abcdef"], indexed by a nibble. *)
Definition hextable (n : Z) : Z := if n <? 10 then 48 + n else 87 + n.

(** [hex.Encode(dst, src)]: two lower-case digits per byte. *)
Fixpoint hex_Encode (src : list Z) : list Z :=
  match src with
  | [] => []
  | v :: rest =>
      hextable (Z.shiftr v 4) :: hextable (Z.land v 0x0f) :: hex_Encode rest
  end.

(** [bytes.ToUpper] on ASCII input, the only input it receives here since
    [hex.Encode] writes hexadecimal digits: letters [a]-[z] are moved to
    [A]-[Z]. *)
Definition upper_byte (b : Z) : Z :=
  if (97 <=? b) && (b <=? 122) then b - 32 else b.

Definition bytes_ToUpper (bs : list Z) : list Z := map upper_byte bs.

(** ** crypto/subtle *)

(** [subtle.ConstantTimeCompare(x, y)]: 1 when the slices have equal length
    and equal contents, 0 otherwise; the differences are or-ed together. *)
Fixpoint ctc_acc (v : Z) (x y : list Z) : Z :=
  match x, y with
  | a :: x', b :: y' => ctc_acc (Z.lor v (Z.lxor a b)) x' y'
  | _, _ => v
  end.

Definition ConstantTimeCompare (x y : list Z) : Z :=
  if negb (length x =? length y)%nat then 0
  else if ctc_acc 0 x y =? 0 then 1 else 0.

(** [copy(dst, src)]: overwrites the first [min(len dst, len src)] bytes. *)
Definition Go_copy (dst src : list Z) : list Z :=
  take (length dst) src ++ drop (length src) dst.

(** ** strconv.ParseInt(s, 10, 64) *)

Inductive NumErrKind := ErrSyntax | ErrRange.

(** Go [error] values met by [CheckAndInit]: those built by [errors.New],
    the [*strconv.NumError] of [ParseInt], and whatever [ParseTime] hands
    back (kept by its message). *)
Inductive error :=
| errors_New (msg : string)
| NumError (Func Num : string) (Err : NumErrKind)
| ParseTimeError (msg : string).

Definition digit_of (c : ascii) : option Z :=
  let d := byte_of_ascii c in
  if (48 <=? d) && (d <=? 57) then Some (d - 48) else None.

Definition maxUint64 : Z := 2 ^ 64 - 1.

(** The digit loop of [ParseUint] in base 10: a character that is not a
    digit is a syntax error, an overflow of [uint64] a range error,
    whichever the left-to-right scan meets first. *)
Fixpoint parse_digits (s : string) (n : Z) : NumErrKind + Z :=
  match s with
  | EmptyString => inr n
  | String c s' =>
      match digit_of c with
      | None => inl ErrSyntax
      | Some v =>
          if n >=? maxUint64 / 10 + 1 then inl ErrRange
          else
            let n1 := n * 10 + v in
            if n1 >? maxUint64 then inl ErrRange else parse_digits s' n1
      end
  end.

Definition ParseUint (s : string) : NumErrKind + Z :=
  match s with
  | EmptyString => inl ErrSyntax
  | _ => parse_digits s 0
  end.

(** [strconv.ParseInt(s, 10, 64)]: an optional sign, the digits through
    [ParseUint], then the range of [int64]. *)
Definition ParseInt (s : string) : error + Z :=
  match s with
  | EmptyString => inl (NumError "ParseInt" s ErrSyntax)
  | String c rest =>
      let '(neg, body) :=
        if Ascii.eqb c "+" then (false, rest)
        else if Ascii.eqb c "-" then (true, rest)
        else (false, s) in
      match ParseUint body with
      | inl k => inl (NumError "ParseInt" s k)
      | inr un =>
          let cutoff := 2 ^ 63 in
          if negb neg && (un >=? cutoff) then inl (NumError "ParseInt" s ErrRange)
          else if neg && (un >? cutoff) then inl (NumError "ParseInt" s ErrRange)
          else inr (if neg then - un else un)
      end
  end.

(** Go's [int] on a 64-bit platform: addition wraps around. *)
Definition wrap64 (z : Z) : Z := (z + 2 ^ 63) mod 2 ^ 64 - 2 ^ 63.
Definition int_add (x y : Z) : Z := wrap64 (x + y).

(** ** url.Values *)

Abbreviation Values := (gmap string (list string)).

(** [values[k]]: indexing a Go map gives the zero value (a nil slice) for a
    key that is not there. *)
Definition values_get (values : Values) (k : string) : list string :=
  default [] (values !! k).

(** The keys of a map, in the order of [map_to_list]; the order of Go's
    [range] is some permutation of it. *)
Definition map_keys (values : Values) : list string := (map_to_list values).*1.

(** The test [len(vs) > 0 && len(vs[0]) > 0] that guards most fields; when
    it holds the field is read from [vs[0]]. *)
Definition first_nonempty (vs : list string) : option string :=
  match vs with
  | v :: _ => if (0 <? String.length v)%nat then Some v else None
  | [] => None
  end.

(** ** The signed string and its digest (lines 73-102) *)

(** [sort.Strings]: ascending byte-wise order. *)
Definition sort_Strings (keys : list string) : list string :=
  merge_sort String.le keys.

(** Inner loop: the values of one key, each preceded by ['&'] when the
    buffer already holds something. *)
Definition write_values (k : string) (vs : list string) (buf : string) : string :=
  fold_left
    (fun buf v =>
       let buf := if (0 <? String.length buf)%nat then buf ++ "&" else buf in
       buf ++ k ++ "=" ++ v)
    vs buf.

(** Outer loop over the sorted keys. *)
Definition write_params (keys : list string) (values : Values) (buf : string)
  : string :=
  fold_left (fun buf k => write_values k (values_get values k) buf) keys buf.

(** [string1]: [ranged] is the list of keys in the order the [range] loop
    of line 74 produced them. *)
Definition string1 (ranged : list string) (values : Values) (paySignKey : string)
  : list Z :=
  let keys := sort_Strings ranged in
  let buf := write_params keys values "" in
  let buf := if (0 <? String.length buf)%nat then buf ++ "&" else buf in
  let buf := buf ++ "key=" in
  let buf := buf ++ paySignKey in
  bytes_of_string buf.

Definition hashSumHexBytes (ranged : list string) (values : Values)
    (paySignKey : string) : list Z :=
  let hashSumArray := MD5.Sum (string1 ranged values paySignKey) in
  let hashSumHexBytes := hex_Encode hashSumArray in
  Go_copy hashSumHexBytes (bytes_ToUpper hashSumHexBytes).

(** ** The record *)

(** Modelled from the spec: the constants [NOTIFY_URL_DATA_CHARSET_GBK] and
    [NOTIFY_URL_DATA_SIGN_METHOD_MD5] are declared outside
    [notify_url_data.go]; the defaults of the charset and of the signing
    method are given as ["GBK"] and ["MD5"]. *)
Definition NOTIFY_URL_DATA_CHARSET_GBK : string := "GBK".
Definition NOTIFY_URL_DATA_SIGN_METHOD_MD5 : string := "MD5".

Section Decoder.

(** [time.Time] and the package's [ParseTime], which live outside this
    file. *)
Variable Time : Type.
Variable ParseTime : string -> string + Time.

(** The order in which [for k := range values] visits the keys: Go leaves
    it unspecified, so it is any enumeration of the keys. *)
Variable rangeKeys : Values -> list string.

Record NotifyURLData := mkNotifyURLData {
  ServiceVersion : string;
  Charset : string;
  Signature : string;
  SignMethod : string;
  SignKeyIndex : Z;
  NotifyId : string;
  TradeMode : Z;
  TradeState : Z;
  PayInfo : string;
  BankBillNo : string;
  TransactionId : string;
  TimeEnd : Time;
  BankType : string;
  PartnerId : string;
  OutTradeNo : string;
  Attach : string;
  TotalFee : Z;
  Discount : Z;
  TransportFee : Z;
  ProductFee : Z;
  FeeType : Z;
  BuyerAlias : string
}.

Definition set_ServiceVersion (v : string) (data : NotifyURLData) : NotifyURLData :=
  mkNotifyURLData v (Charset data) (Signature data) (SignMethod data)
    (SignKeyIndex data) (NotifyId data) (TradeMode data) (TradeState data)
    (PayInfo data) (BankBillNo data) (TransactionId data) (TimeEnd data)
    (BankType data) (PartnerId data) (OutTradeNo data) (Attach data)
    (TotalFee data) (Discount data) (TransportFee data) (ProductFee data)
    (FeeType data) (BuyerAlias data).

Definition set_Charset (v : string) (data : NotifyURLData) : NotifyURLData :=
  mkNotifyURLData (ServiceVersion data) v (Signature data) (SignMethod data)
    (SignKeyIndex data) (NotifyId data) (TradeMode data) (TradeState data)
    (PayInfo data) (BankBillNo data) (TransactionId data) (TimeEnd data)
    (BankType data) (PartnerId data) (OutTradeNo data) (Attach data)
    (TotalFee data) (Discount data) (TransportFee data) (ProductFee data)
    (FeeType data) (BuyerAlias data).

Definition set_Signature (v : string) (data : NotifyURLData) : NotifyURLData :=
  mkNotifyURLData (ServiceVersion data) (Charset data) v (SignMethod data)
    (SignKeyIndex data) (NotifyId data) (TradeMode data) (TradeState data)
    (PayInfo data) (BankBillNo data) (TransactionId data) (TimeEnd data)
    (BankType data) (PartnerId data) (OutTradeNo data) (Attach data)
    (TotalFee data) (Discount data) (TransportFee data) (ProductFee data)
    (FeeType data) (BuyerAlias data).

Definition set_SignMethod (v : string) (data : NotifyURLData) : NotifyURLData :=
  mkNotifyURLData (ServiceVersion data) (Charset data) (Signature data) v
    (SignKeyIndex data) (NotifyId data) (TradeMode data) (TradeState data)
    (PayInfo data) (BankBillNo data) (TransactionId data) (TimeEnd data)
    (BankType data) (PartnerId data) (OutTradeNo data) (Attach data)
    (TotalFee data) (Discount data) (TransportFee data) (ProductFee data)
    (FeeType data) (BuyerAlias data).

Definition set_SignKeyIndex (v : Z) (data : NotifyURLData) : NotifyURLData :=
  mkNotifyURLData (ServiceVersion data) (Charset data) (Signature data)
    (SignMethod data) v (NotifyId data) (TradeMode data) (TradeState data)
    (PayInfo data) (BankBillNo data) (TransactionId data) (TimeEnd data)
    (BankType data) (PartnerId data) (OutTradeNo data) (Attach data)
    (TotalFee data) (Discount data) (TransportFee data) (ProductFee data)
    (FeeType data) (BuyerAlias data).

Definition set_NotifyId (v : string) (data : NotifyURLData) : NotifyURLData :=
  mkNotifyURLData (ServiceVersion data) (Charset data) (Signature data)
    (SignMethod data) (SignKeyIndex data) v (TradeMode data)
    (TradeState data) (PayInfo data) (BankBillNo data) (TransactionId data)
    (TimeEnd data) (BankType data) (PartnerId data) (OutTradeNo data)
    (Attach data) (TotalFee data) (Discount data) (TransportFee data)
    (ProductFee data) (FeeType data) (BuyerAlias data).

Definition set_TradeMode (v : Z) (data : NotifyURLData) : NotifyURLData :=
  mkNotifyURLData (ServiceVersion data) (Charset data) (Signature data)
    (SignMethod data) (SignKeyIndex data) (NotifyId data) v
    (TradeState data) (PayInfo data) (BankBillNo data) (TransactionId data)
    (TimeEnd data) (BankType data) (PartnerId data) (OutTradeNo data)
    (Attach data) (TotalFee data) (Discount data) (TransportFee data)
    (ProductFee data) (FeeType data) (BuyerAlias data).

Definition set_TradeState (v : Z) (data : NotifyURLData) : NotifyURLData :=
  mkNotifyURLData (ServiceVersion data) (Charset data) (Signature data)
    (SignMethod data) (SignKeyIndex data) (NotifyId data) (TradeMode data) v
    (PayInfo data) (BankBillNo data) (TransactionId data) (TimeEnd data)
    (BankType data) (PartnerId data) (OutTradeNo data) (Attach data)
    (TotalFee data) (Discount data) (TransportFee data) (ProductFee data)
    (FeeType data) (BuyerAlias data).

Definition set_PayInfo (v : string) (data : NotifyURLData) : NotifyURLData :=
  mkNotifyURLData (ServiceVersion data) (Charset data) (Signature data)
    (SignMethod data) (SignKeyIndex data) (NotifyId data) (TradeMode data)
    (TradeState data) v (BankBillNo data) (TransactionId data)
    (TimeEnd data) (BankType data) (PartnerId data) (OutTradeNo data)
    (Attach data) (TotalFee data) (Discount data) (TransportFee data)
    (ProductFee data) (FeeType data) (BuyerAlias data).

Definition set_BankBillNo (v : string) (data : NotifyURLData) : NotifyURLData :=
  mkNotifyURLData (ServiceVersion data) (Charset data) (Signature data)
    (SignMethod data) (SignKeyIndex data) (NotifyId data) (TradeMode data)
    (TradeState data) (PayInfo data) v (TransactionId data) (TimeEnd data)
    (BankType data) (PartnerId data) (OutTradeNo data) (Attach data)
    (TotalFee data) (Discount data) (TransportFee data) (ProductFee data)
    (FeeType data) (BuyerAlias data).

Definition set_TransactionId (v : string) (data : NotifyURLData) : NotifyURLData :=
  mkNotifyURLData (ServiceVersion data) (Charset data) (Signature data)
    (SignMethod data) (SignKeyIndex data) (NotifyId data) (TradeMode data)
    (TradeState data) (PayInfo data) (BankBillNo data) v (TimeEnd data)
    (BankType data) (PartnerId data) (OutTradeNo data) (Attach data)
    (TotalFee data) (Discount data) (TransportFee data) (ProductFee data)
    (FeeType data) (BuyerAlias data).

Definition set_TimeEnd (v : Time) (data : NotifyURLData) : NotifyURLData :=
  mkNotifyURLData (ServiceVersion data) (Charset data) (Signature data)
    (SignMethod data) (SignKeyIndex data) (NotifyId data) (TradeMode data)
    (TradeState data) (PayInfo data) (BankBillNo data) (TransactionId data)
    v (BankType data) (PartnerId data) (OutTradeNo data) (Attach data)
    (TotalFee data) (Discount data) (TransportFee data) (ProductFee data)
    (FeeType data) (BuyerAlias data).

Definition set_BankType (v : string) (data : NotifyURLData) : NotifyURLData :=
  mkNotifyURLData (ServiceVersion data) (Charset data) (Signature data)
    (SignMethod data) (SignKeyIndex data) (NotifyId data) (TradeMode data)
    (TradeState data) (PayInfo data) (BankBillNo data) (TransactionId data)
    (TimeEnd data) v (PartnerId data) (OutTradeNo data) (Attach data)
    (TotalFee data) (Discount data) (TransportFee data) (ProductFee data)
    (FeeType data) (BuyerAlias data).

Definition set_PartnerId (v : string) (data : NotifyURLData) : NotifyURLData :=
  mkNotifyURLData (ServiceVersion data) (Charset data) (Signature data)
    (SignMethod data) (SignKeyIndex data) (NotifyId data) (TradeMode data)
    (TradeState data) (PayInfo data) (BankBillNo data) (TransactionId data)
    (TimeEnd data) (BankType data) v (OutTradeNo data) (Attach data)
    (TotalFee data) (Discount data) (TransportFee data) (ProductFee data)
    (FeeType data) (BuyerAlias data).

Definition set_OutTradeNo (v : string) (data : NotifyURLData) : NotifyURLData :=
  mkNotifyURLData (ServiceVersion data) (Charset data) (Signature data)
    (SignMethod data) (SignKeyIndex data) (NotifyId data) (TradeMode data)
    (TradeState data) (PayInfo data) (BankBillNo data) (TransactionId data)
    (TimeEnd data) (BankType data) (PartnerId data) v (Attach data)
    (TotalFee data) (Discount data) (TransportFee data) (ProductFee data)
    (FeeType data) (BuyerAlias data).

Definition set_Attach (v : string) (data : NotifyURLData) : NotifyURLData :=
  mkNotifyURLData (ServiceVersion data) (Charset data) (Signature data)
    (SignMethod data) (SignKeyIndex data) (NotifyId data) (TradeMode data)
    (TradeState data) (PayInfo data) (BankBillNo data) (TransactionId data)
    (TimeEnd data) (BankType data) (PartnerId data) (OutTradeNo data) v
    (TotalFee data) (Discount data) (TransportFee data) (ProductFee data)
    (FeeType data) (BuyerAlias data).

Definition set_TotalFee (v : Z) (data : NotifyURLData) : NotifyURLData :=
  mkNotifyURLData (ServiceVersion data) (Charset data) (Signature data)
    (SignMethod data) (SignKeyIndex data) (NotifyId data) (TradeMode data)
    (TradeState data) (PayInfo data) (BankBillNo data) (TransactionId data)
    (TimeEnd data) (BankType data) (PartnerId data) (OutTradeNo data)
    (Attach data) v (Discount data) (TransportFee data) (ProductFee data)
    (FeeType data) (BuyerAlias data).

Definition set_Discount (v : Z) (data : NotifyURLData) : NotifyURLData :=
  mkNotifyURLData (ServiceVersion data) (Charset data) (Signature data)
    (SignMethod data) (SignKeyIndex data) (NotifyId data) (TradeMode data)
    (TradeState data) (PayInfo data) (BankBillNo data) (TransactionId data)
    (TimeEnd data) (BankType data) (PartnerId data) (OutTradeNo data)
    (Attach data) (TotalFee data) v (TransportFee data) (ProductFee data)
    (FeeType data) (BuyerAlias data).

Definition set_TransportFee (v : Z) (data : NotifyURLData) : NotifyURLData :=
  mkNotifyURLData (ServiceVersion data) (Charset data) (Signature data)
    (SignMethod data) (SignKeyIndex data) (NotifyId data) (TradeMode data)
    (TradeState data) (PayInfo data) (BankBillNo data) (TransactionId data)
    (TimeEnd data) (BankType data) (PartnerId data) (OutTradeNo data)
    (Attach data) (TotalFee data) (Discount data) v (ProductFee data)
    (FeeType data) (BuyerAlias data).

Definition set_ProductFee (v : Z) (data : NotifyURLData) : NotifyURLData :=
  mkNotifyURLData (ServiceVersion data) (Charset data) (Signature data)
    (SignMethod data) (SignKeyIndex data) (NotifyId data) (TradeMode data)
    (TradeState data) (PayInfo data) (BankBillNo data) (TransactionId data)
    (TimeEnd data) (BankType data) (PartnerId data) (OutTradeNo data)
    (Attach data) (TotalFee data) (Discount data) (TransportFee data) v
    (FeeType data) (BuyerAlias data).

Definition set_FeeType (v : Z) (data : NotifyURLData) : NotifyURLData :=
  mkNotifyURLData (ServiceVersion data) (Charset data) (Signature data)
    (SignMethod data) (SignKeyIndex data) (NotifyId data) (TradeMode data)
    (TradeState data) (PayInfo data) (BankBillNo data) (TransactionId data)
    (TimeEnd data) (BankType data) (PartnerId data) (OutTradeNo data)
    (Attach data) (TotalFee data) (Discount data) (TransportFee data)
    (ProductFee data) v (BuyerAlias data).

Definition set_BuyerAlias (v : string) (data : NotifyURLData) : NotifyURLData :=
  mkNotifyURLData (ServiceVersion data) (Charset data) (Signature data)
    (SignMethod data) (SignKeyIndex data) (NotifyId data) (TradeMode data)
    (TradeState data) (PayInfo data) (BankBillNo data) (TransactionId data)
    (TimeEnd data) (BankType data) (PartnerId data) (OutTradeNo data)
    (Attach data) (TotalFee data) (Discount data) (TransportFee data)
    (ProductFee data) (FeeType data) v.


(** ** CheckAndInit *)

(** What a call leaves behind: the receiver [data], the caller's map
    [values] (the method mutates both in place) and the returned [err]
    ([None] for [nil]). *)
Record outcome := mkOutcome {
  out_data : NotifyURLData;
  out_values : option Values;
  out_err : option error
}.

(** The body after the signature check runs on the receiver: every
    statement either assigns a field or returns an error, leaving the
    fields assigned so far in place. *)
Definition init (A : Type) : Type := NotifyURLData -> NotifyURLData * (error + A).

Definition ret {A} (a : A) : init A := fun data => (data, inr a).
Definition fail {A} (e : error) : init A := fun data => (data, inl e).
Definition assign (f : NotifyURLData -> NotifyURLData) : init unit :=
  fun data => (f data, inr tt).
Definition read : init NotifyURLData := fun data => (data, inr data).
Definition bind {A B} (c : init A) (k : A -> init B) : init B :=
  fun data =>
    match c data with
    | (data', inl e) => (data', inl e)
    | (data', inr a) => k a data'
    end.

Notation "x <- c ;; k" := (bind c (fun x => k))
  (at level 100, c at next level, right associativity).
Notation "c ;; k" := (bind c (fun _ => k))
  (at level 100, right associativity).

(** An integer field: [strconv.ParseInt(s, 10, 64)], then [int(...)], which
    keeps the value where [int] has 64 bits. *)
Definition parse_into (set : Z -> NotifyURLData -> NotifyURLData) (s : string)
  : init unit :=
  match ParseInt s with
  | inl err => fail err
  | inr n => assign (set n)
  end.

(** Lines 110-267. *)
Definition init_fields (values : Values) (signature : string) : init unit :=
  match first_nonempty (values_get values "service_version") with
  | Some v => assign (set_ServiceVersion v)
  | None => assign (set_ServiceVersion "1.0")
  end ;;
  match first_nonempty (values_get values "input_charset") with
  | Some v => assign (set_Charset v)
  | None => assign (set_Charset NOTIFY_URL_DATA_CHARSET_GBK)
  end ;;
  assign (set_Signature signature) ;;
  match first_nonempty (values_get values "sign_type") with
  | Some v => assign (set_SignMethod v)
  | None => assign (set_SignMethod NOTIFY_URL_DATA_SIGN_METHOD_MD5)
  end ;;
  match first_nonempty (values_get values "sign_key_index") with
  | Some v => parse_into set_SignKeyIndex v
  | None => assign (set_SignKeyIndex 1)
  end ;;
  match first_nonempty (values_get values "notify_id") with
  | Some v => assign (set_NotifyId v)
  | None => fail (errors_New "notify_id is empty")
  end ;;
  match first_nonempty (values_get values "trade_mode") with
  | Some v => parse_into set_TradeMode v
  | None => fail (errors_New "trade_mode is empty")
  end ;;
  match first_nonempty (values_get values "trade_state") with
  | Some v => parse_into set_TradeState v
  | None => fail (errors_New "trade_state is empty")
  end ;;
  match values_get values "pay_info" with
  | v :: _ => assign (set_PayInfo v)
  | [] => ret tt
  end ;;
  match values_get values "bank_billno" with
  | v :: _ => assign (set_BankBillNo v)
  | [] => ret tt
  end ;;
  match first_nonempty (values_get values "transaction_id") with
  | Some v => assign (set_TransactionId v)
  | None => fail (errors_New "transaction_id is empty")
  end ;;
  match first_nonempty (values_get values "time_end") with
  | Some v =>
      match ParseTime v with
      | inl err => fail (ParseTimeError err)
      | inr t => assign (set_TimeEnd t)
      end
  | None => fail (errors_New "time_end is empty")
  end ;;
  match first_nonempty (values_get values "bank_type") with
  | Some v => assign (set_BankType v)
  | None => fail (errors_New "bank_type is empty")
  end ;;
  match first_nonempty (values_get values "partner") with
  | Some v => assign (set_PartnerId v)
  | None => fail (errors_New "partner is empty")
  end ;;
  match first_nonempty (values_get values "out_trade_no") with
  | Some v => assign (set_OutTradeNo v)
  | None => fail (errors_New "out_trade_no is empty")
  end ;;
  match values_get values "attach" with
  | v :: _ => assign (set_Attach v)
  | [] => ret tt
  end ;;
  match first_nonempty (values_get values "total_fee") with
  | Some v => parse_into set_TotalFee v
  | None => fail (errors_New "total_fee is empty")
  end ;;
  match first_nonempty (values_get values "discount") with
  | Some v => parse_into set_Discount v
  | None => ret tt
  end ;;
  match first_nonempty (values_get values "transport_fee") with
  | Some v => parse_into set_TransportFee v
  | None => ret tt
  end ;;
  match first_nonempty (values_get values "product_fee") with
  | Some v => parse_into set_ProductFee v
  | None => ret tt
  end ;;
  data <- read ;;
  (if negb (TransportFee data =? 0) || negb (ProductFee data =? 0) then
     if negb (int_add (TransportFee data) (ProductFee data) =? TotalFee data)
     then fail (errors_New "transport_fee+product_fee != total_fee")
     else ret tt
   else ret tt) ;;
  match first_nonempty (values_get values "fee_type") with
  | Some v => parse_into set_FeeType v
  | None => fail (errors_New "fee_type is empty")
  end ;;
  match values_get values "buyer_alias" with
  | v :: _ => assign (set_BuyerAlias v)
  | [] => ret tt
  end.

Definition CheckAndInit (data : NotifyURLData) (values : option Values)
    (paySignKey : string) : outcome :=
  match values with
  | None => mkOutcome data None (Some (errors_New "values == nil"))
  | Some values =>
      let signatures := values_get values "sign" in
      match first_nonempty signatures with
      | None => mkOutcome data (Some values) (Some (errors_New "sign is empty"))
      | Some signature =>
          let values := delete "sign" values in
          let hashSumHexBytes :=
            hashSumHexBytes (rangeKeys values) values paySignKey in
          if negb (ConstantTimeCompare (bytes_of_string signature) hashSumHexBytes =? 1)
          then mkOutcome data (Some values) (Some (errors_New "签名检验不通过"))
          else
            match init_fields values signature data with
            | (data, inl err) => mkOutcome data (Some values) (Some err)
            | (data, inr _) => mkOutcome data (Some values) None
            end
      end
  end.

End Decoder.

Arguments mkNotifyURLData {Time}.
Arguments mkOutcome {Time}.
Arguments out_data {Time}.
Arguments out_values {Time}.
Arguments out_err {Time}.
Arguments CheckAndInit {Time}.
Arguments init_fields {Time}.
Arguments ServiceVersion {Time}.
Arguments Charset {Time}.
Arguments Signature {Time}.
Arguments SignMethod {Time}.
Arguments SignKeyIndex {Time}.
Arguments NotifyId {Time}.
Arguments TradeMode {Time}.
Arguments TradeState {Time}.
Arguments PayInfo {Time}.
Arguments BankBillNo {Time}.
Arguments TransactionId {Time}.
Arguments TimeEnd {Time}.
Arguments BankType {Time}.
Arguments PartnerId {Time}.
Arguments OutTradeNo {Time}.
Arguments Attach {Time}.
Arguments TotalFee {Time}.
Arguments Discount {Time}.
Arguments TransportFee {Time}.
Arguments ProductFee {Time}.
Arguments FeeType {Time}.
Arguments BuyerAlias {Time}.
Arguments set_ServiceVersion {Time}.
Arguments set_Charset {Time}.
Arguments set_Signature {Time}.
Arguments set_SignMethod {Time}.
Arguments set_SignKeyIndex {Time}.
Arguments set_NotifyId {Time}.
Arguments set_TradeMode {Time}.
Arguments set_TradeState {Time}.
Arguments set_PayInfo {Time}.
Arguments set_BankBillNo {Time}.
Arguments set_TransactionId {Time}.
Arguments set_TimeEnd {Time}.
Arguments set_BankType {Time}.
Arguments set_PartnerId {Time}.
Arguments set_OutTradeNo {Time}.
Arguments set_Attach {Time}.
Arguments set_TotalFee {Time}.
Arguments set_Discount {Time}.
Arguments set_TransportFee {Time}.
Arguments set_ProductFee {Time}.
Arguments set_FeeType {Time}.
Arguments set_BuyerAlias {Time}.
Arguments ret {Time A}.
Arguments fail {Time A}.
Arguments assign {Time}.
Arguments read {Time}.
Arguments bind {Time A B}.
Arguments parse_into {Time}.

(** ** The error values, by the names the specification gives them *)

Definition InvalidInput : error := errors_New "values == nil".
Definition MissingSignature : error := errors_New "sign is empty".
Definition SignatureMismatch : error := errors_New "签名检验不通过".
Definition InconsistentFees : error :=
  errors_New "transport_fee+product_fee != total_fee".


(** ** The signed string, in the words of the specification *)

(** The [key=value] entries: key by key in the order of [keys], the values
    of one key in their arrival order. *)
Definition entries (keys : list string) (values : Values) : list string :=
  flat_map (fun k => map (fun v => k ++ "=" ++ v) (values_get values k)) keys.

(** The keys other than [sign], in ascending byte-wise order. *)
Definition spec_keys (values : Values) : list string :=
  merge_sort String.le (filter (fun k => k <> "sign") (map_keys values)).

(** Steps 3 and 4 of the signer as the specification words them: the entries
    separated by ['&'], followed by the trailing entry [&key=<secretKey>]. *)
Definition spec_string (values : Values) (secretKey : string) : string :=
  String.concat "&" (entries (spec_keys values) values) ++ "&key=" ++ secretKey.

(** The same with [key=<secretKey>] taken as one more entry of the
    ['&']-separated sequence. *)
Definition joined_string (values : Values) (secretKey : string) : string :=
  String.concat "&" (entries (spec_keys values) values ++ ["key=" ++ secretKey]).

(** Upper-case hexadecimal encoding, with the table ["0123456789ABCDEF"]. *)
Definition upper_hextable (n : Z) : Z := if n <? 10 then 48 + n else 55 + n.

Fixpoint hex_upper (src : list Z) : list Z :=
  match src with
  | [] => []
  | v :: rest =>
      upper_hextable (Z.shiftr v 4) :: upper_hextable (Z.land v 0x0f)
        :: hex_upper rest
  end.

Definition digest_of (s : string) : list Z :=
  hex_upper (MD5.Sum (bytes_of_string s)).

Definition spec_digest (values : Values) (secretKey : string) : list Z :=
  digest_of (spec_string values secretKey).

(** The buffer of lines 79-91 seen as a fold over entries. *)
Definition join_onto (buf : string) (es : list string) : string :=
  fold_left
    (fun buf e => (if (0 <? String.length buf)%nat then buf ++ "&" else buf) ++ e)
    es buf.

(** ** Preconditions of the properties *)

(** "Correctly signed": the first [sign] value is non-empty and equal, byte
    for byte, to the digest the code computes over the other parameters. *)
Definition correctly_signed (rangeKeys : Values -> list string)
    (values : Values) (paySignKey : string) : bool :=
  match first_nonempty (values_get values "sign") with
  | Some signature =>
      bool_decide
        (bytes_of_string signature =
         hashSumHexBytes (rangeKeys (delete "sign" values))
           (delete "sign" values) paySignKey)
  | None => false
  end.

(** The received signature, [""] when there is none. *)
Definition received_signature (values : Values) : string :=
  default "" (first_nonempty (values_get values "sign")).

Definition present (values : Values) (k : string) : bool :=
  match first_nonempty (values_get values k) with
  | Some _ => true
  | None => false
  end.

(** A parameter read as an integer: [None] when absent or empty. *)
Definition int_param (values : Values) (k : string) : option (error + Z) :=
  ParseInt <$> first_nonempty (values_get values k).

Definition int_present (values : Values) (k : string) : bool :=
  match int_param values k with
  | Some (inr _) => true
  | _ => false
  end.

Definition int_optional (values : Values) (k : string) : bool :=
  match int_param values k with
  | Some (inl _) => false
  | _ => true
  end.

(** The value of an integer field once its parameter has been read: the
    parsed value, or what the receiver held before when the parameter is
    absent or empty. *)
Definition int_after (values : Values) (k : string) (old : Z) : Z :=
  match int_param values k with
  | Some (inr n) => n
  | _ => old
  end.

Section Validity.

Context {Time : Type}.
Variable ParseTime : string -> string + Time.

Definition time_present (values : Values) : bool :=
  match first_nonempty (values_get values "time_end") with
  | Some v => match ParseTime v with inr _ => true | inl _ => false end
  | None => false
  end.

(** Every field read before the fee check is acceptable, so that the check
    of lines 247-251 is reached. *)
Definition reaches_fee_check (values : Values) : bool :=
  int_optional values "sign_key_index" && present values "notify_id" &&
  int_present values "trade_mode" && int_present values "trade_state" &&
  present values "transaction_id" && time_present values &&
  present values "bank_type" && present values "partner" &&
  present values "out_trade_no" && int_present values "total_fee" &&
  int_optional values "discount" && int_optional values "transport_fee" &&
  int_optional values "product_fee".

Definition transport_fee_of (data : NotifyURLData Time) (values : Values) : Z :=
  int_after values "transport_fee" (TransportFee data).
Definition product_fee_of (data : NotifyURLData Time) (values : Values) : Z :=
  int_after values "product_fee" (ProductFee data).
Definition total_fee_of (data : NotifyURLData Time) (values : Values) : Z :=
  int_after values "total_fee" (TotalFee data).

Definition fees_consistent (data : NotifyURLData Time) (values : Values) : bool :=
  (transport_fee_of data values =? 0) && (product_fee_of data values =? 0)
  || (int_add (transport_fee_of data values) (product_fee_of data values)
      =? total_fee_of data values).

(** "Otherwise valid": every step of the decoder goes through, the fee type
    left aside in the first predicate. *)
Definition valid_but_fee_type (data : NotifyURLData Time) (values : Values) : bool :=
  reaches_fee_check values && fees_consistent data values.

Definition otherwise_valid (data : NotifyURLData Time) (values : Values) : bool :=
  valid_but_fee_type data values && int_present values "fee_type".

End Validity.

(** ** Concrete inputs *)

(** A stand-in for [ParseTime]: fourteen characters are taken as a time. *)
Definition demo_ParseTime (s : string) : string + string :=
  if (String.length s =? 14)%nat then inr s else inl "cannot parse time".

(** Two orders in which [range] may visit the keys. *)
Definition range_forward (values : Values) : list string := map_keys values.
Definition range_backward (values : Values) : list string :=
  reverse (map_keys values).

(** A freshly allocated record. *)
Definition fresh : NotifyURLData string :=
  mkNotifyURLData "" "" "" "" 0 "" 0 0 "" "" "" "" "" "" "" "" 0 0 0 0 0 "".

(** The parameters of the end-to-end example of the specification. *)
Definition example_params : Values :=
  list_to_map
    [ ("out_trade_no", ["T1"]); ("partner", ["P1"]); ("bank_type", ["WX"]);
      ("transaction_id", ["1234567890200901010000000001"]);
      ("time_end", ["20090101000000"]); ("notify_id", ["N1"]);
      ("trade_mode", ["1"]); ("trade_state", ["0"]); ("total_fee", ["100"]);
      ("fee_type", ["1"]) ].

Definition signed (signature : string) (values : Values) : Values :=
  <["sign" := [signature]]> values.

Definition with_fees (transport product total : string) (values : Values)
  : Values :=
  <["transport_fee" := [transport]]>
    (<["product_fee" := [product]]> (<["total_fee" := [total]]> values)).

(** ** Properties of the body as a computation on the receiver *)

(** The computation leaves the projection [proj] of the receiver alone. *)
Definition keeps {Time A B} (proj : NotifyURLData Time -> B) (c : init Time A)
  : Prop :=
  forall data, proj (c data).1 = proj data.

(** Every error the computation can return satisfies [P]. *)
Definition errs {Time A} (P : error -> Prop) (c : init Time A) : Prop :=
  forall data data' e, c data = (data', inl e) -> P e.

(** The errors that lines 110-267 can return. *)
Definition body_error (e : error) : Prop :=
  match e with
  | errors_New msg =>
      msg ∈ [ "notify_id is empty"; "trade_mode is empty"; "trade_state is empty";
              "transaction_id is empty"; "time_end is empty";
              "bank_type is empty"; "partner is empty"; "out_trade_no is empty";
              "total_fee is empty"; "transport_fee+product_fee != total_fee";
              "fee_type is empty" ]
  | NumError _ _ _ => True
  | ParseTimeError _ => True
  end.

(** Lines 253-267 run on a record: the fee type, then the buyer alias. *)
Definition fee_type_and_alias {Time} (values : Values) (data : NotifyURLData Time)
  : NotifyURLData Time * (error + unit) :=
  match first_nonempty (values_get values "fee_type") with
  | Some v =>
      match ParseInt v with
      | inl err => (data, inl err)
      | inr feeType =>
          (match values_get values "buyer_alias" with
           | v :: _ => set_BuyerAlias v (set_FeeType feeType data)
           | [] => set_FeeType feeType data
           end, inr tt)
      end
  | None => (data, inl (errors_New "fee_type is empty"))
  end.

(** The example signed for the key ["secret"]; the same with the signature
    in lower case; with a fee breakdown that adds up, and one that does
    not; without [fee_type]; without [notify_id]; the three fees alone;
    [sign] alone. *)
Definition example_signed : Values :=
  signed "2C5FDAE63617CE66BD7260B802A7ABDD" example_params.
Definition example_lower_case : Values :=
  signed "2c5fdae63617ce66bd7260b802a7abdd" example_params.
Definition example_fees_100 : Values :=
  signed "73DEAF7A2B9D035E7212ACB73A04A7CA"
    (with_fees "30" "70" "100" example_params).
Definition example_fees_90 : Values :=
  signed "E082CDEFDBAEA208963884ED207FB3E2"
    (with_fees "30" "70" "90" example_params).
Definition example_no_fee_type : Values :=
  signed "66D0F4F2A690B7DFDE88ADA654D249AC" (delete "fee_type" example_params).
Definition example_no_notify_id : Values :=
  signed "CEDBB7ACB529DAD9875105B5C985404D" (delete "notify_id" example_params).
Definition fees_only : Values :=
  signed "8688E0EFB30DA51C7ABE6232DC4A5436" (with_fees "30" "70" "90" ∅).
Definition sign_only : Values :=
  signed "80353F06772F9B5C80204F40D0D34FDA" ∅.

Definition demo (values : option Values) : outcome string :=
  CheckAndInit demo_ParseTime range_forward fresh values "secret".

(** ** Where the body stops *)

(** The parameters the body reads, those it requires as text, and those it
    parses as integers. *)
Definition recognised_keys : list string :=
  [ "service_version"; "input_charset"; "sign_type"; "sign_key_index";
    "notify_id"; "trade_mode"; "trade_state"; "pay_info"; "bank_billno";
    "transaction_id"; "time_end"; "bank_type"; "partner"; "out_trade_no";
    "attach"; "total_fee"; "discount"; "transport_fee"; "product_fee";
    "fee_type"; "buyer_alias" ].

Definition required_keys : list string :=
  [ "notify_id"; "trade_mode"; "trade_state"; "transaction_id"; "time_end";
    "bank_type"; "partner"; "out_trade_no"; "total_fee"; "fee_type" ].

Definition int_keys : list string :=
  [ "sign_key_index"; "trade_mode"; "trade_state"; "total_fee"; "discount";
    "transport_fee"; "product_fee"; "fee_type" ].

(** The error of an integer parameter: the one [ParseInt] returns, or
    [missing] when the parameter is absent or empty. *)
Definition int_error (values : Values) (k : string) (missing : error) : error :=
  match int_param values k with
  | Some (inl err) => err
  | _ => missing
  end.

(** A required text parameter, [""] when it is absent. *)
Definition first_value (values : Values) (k : string) : string :=
  default "" (first_nonempty (values_get values k)).

(** An optional text parameter: its first value, or what the receiver held. *)
Definition head_or (values : Values) (k : string) (old : string) : string :=
  default old (head (values_get values k)).

(** The errors of the statements that come before the fee check. *)
Definition early_error (e : error) : Prop :=
  match e with
  | errors_New msg =>
      msg ∈ [ "notify_id is empty"; "trade_mode is empty"; "trade_state is empty";
              "transaction_id is empty"; "time_end is empty";
              "bank_type is empty"; "partner is empty"; "out_trade_no is empty";
              "total_fee is empty" ]
  | NumError Func _ _ => Func = "ParseInt"
  | ParseTimeError _ => True
  end.

Section Origins.

Context {Time : Type}.
Variable ParseTime : string -> string + Time.

Definition time_error (values : Values) : error :=
  match first_nonempty (values_get values "time_end") with
  | Some v =>
      match ParseTime v with
      | inl err => ParseTimeError err
      | inr _ => errors_New "time_end is empty"
      end
  | None => errors_New "time_end is empty"
  end.

(** Where an error of the body comes from: a required parameter that is
    absent or empty, the fee check, an integer parameter that [ParseInt]
    refuses, or a [time_end] that [ParseTime] refuses. *)
Definition error_origin (values : Values) (e : error) : Prop :=
  match e with
  | errors_New msg =>
      msg = "transport_fee+product_fee != total_fee" \/
      exists k, k ∈ required_keys /\ msg = k ++ " is empty" /\
                present values k = false
  | NumError Func Num Err =>
      Func = "ParseInt" /\
      exists k, k ∈ int_keys /\
                first_nonempty (values_get values k) = Some Num /\
                ParseInt Num = inl e
  | ParseTimeError msg =>
      exists v, first_nonempty (values_get values "time_end") = Some v /\
                ParseTime v = inl msg
  end.

End Origins.

(** Two parameter sets with the same first value under every key the body
    reads. *)
Definition same_first_values (values1 values2 : Values) : Prop :=
  forall k, k ∈ recognised_keys ->
    head (values_get values1 k) = head (values_get values2 k).

(** The record a successful call leaves: every field holds the first value
    of its parameter, parsed where it is an integer or the time [t]; an
    optional parameter that is absent (or, for an integer, empty) leaves
    what the receiver [data] held. *)
Definition decoded {Time} (values : Values) (t : Time)
    (data : NotifyURLData Time) : NotifyURLData Time :=
  {| ServiceVersion :=
       default "1.0" (first_nonempty (values_get values "service_version"));
     Charset := default "GBK" (first_nonempty (values_get values "input_charset"));
     Signature := received_signature values;
     SignMethod := default "MD5" (first_nonempty (values_get values "sign_type"));
     SignKeyIndex := int_after values "sign_key_index" 1;
     NotifyId := first_value values "notify_id";
     TradeMode := int_after values "trade_mode" 0;
     TradeState := int_after values "trade_state" 0;
     PayInfo := head_or values "pay_info" (PayInfo data);
     BankBillNo := head_or values "bank_billno" (BankBillNo data);
     TransactionId := first_value values "transaction_id";
     TimeEnd := t;
     BankType := first_value values "bank_type";
     PartnerId := first_value values "partner";
     OutTradeNo := first_value values "out_trade_no";
     Attach := head_or values "attach" (Attach data);
     TotalFee := int_after values "total_fee" 0;
     Discount := int_after values "discount" (Discount data);
     TransportFee := int_after values "transport_fee" (TransportFee data);
     ProductFee := int_after values "product_fee" (ProductFee data);
     FeeType := int_after values "fee_type" 0;
     BuyerAlias := head_or values "buyer_alias" (BuyerAlias data) |}.

(** The characters of an upper-case hexadecimal digest. *)
Definition upper_hex_digit (c : Z) : Prop := 48 <= c <= 57 \/ 65 <= c <= 70.

(** The computation neither reads nor writes the [Signature] field. *)
Definition signature_blind {Time A} (c : init Time A) : Prop :=
  forall (s : string) data,
    c (set_Signature s data) = (set_Signature s (c data).1, (c data).2).

(** More parameter sets signed for the key ["secret"]: the example with a
    parameter the decoder does not know and a second total fee; with a trade
    mode that is not a number; with a time [demo_ParseTime] refuses; with
    two attachments, and with the two written as one value; with every
    optional parameter. *)
Definition example_extra : Values :=
  signed "0A61369F942698C66902D42D90D9A016"
    (<["foo" := ["bar"]]> (<["total_fee" := ["100"; "999"]]> example_params)).
Definition example_bad_mode : Values :=
  signed "435CF574578275F49B8207EE1ED28F29"
    (<["trade_mode" := ["one"]]> example_params).
Definition example_bad_time : Values :=
  signed "3CC41AE1D7D79B8B62D8DB79EBE0BD7B"
    (<["time_end" := ["2009"]]> example_params).
Definition example_two_attach : Values :=
  signed "8F7CF005041C3020332381978495C497"
    (<["attach" := ["a"; "b"]]> example_params).
Definition example_full : Values :=
  signed "07AED8EDC1D8DBB979FA1AE0D7A706A2"
    (list_to_map
       [ ("pay_info", ["ok"]); ("bank_billno", ["B9"]); ("attach", ["att"]);
         ("discount", ["5"]); ("transport_fee", ["30"]); ("product_fee", ["70"]);
         ("buyer_alias", ["al"]); ("service_version", ["2.0"]);
         ("input_charset", ["UTF-8"]); ("sign_type", ["RSA"]);
         ("sign_key_index", ["3"]) ] ∪ example_params).
(** ** Basic facts about the library functions *)

(** RFC 1321 test suite, through the hex encoder. *)
Example md5_empty :
  bytes_ToUpper (hex_Encode (MD5.Sum [])) =
  bytes_of_string "D41D8CD98F00B204E9800998ECF8427E".
Proof. vm_compute. reflexivity. Qed.

Example md5_abc :
  bytes_ToUpper (hex_Encode (MD5.Sum (bytes_of_string "abc"))) =
  bytes_of_string "900150983CD24FB0D6963F7D28E17F72".
Proof. vm_compute. reflexivity. Qed.

Example md5_message_digest :
  hex_Encode (MD5.Sum (bytes_of_string "message digest")) =
  bytes_of_string "f96b697d7cb7938d525a2f31aaf161d0".
Proof. vm_compute. reflexivity. Qed.

Example md5_two_blocks :
  hex_Encode (MD5.Sum (bytes_of_string
    "12345678901234567890123456789012345678901234567890123456789012345678901234567890")) =
  bytes_of_string "57edf4a22be3c955ac49da2e2107b67a".
Proof. vm_compute. reflexivity. Qed.

Lemma ctc_acc_zero (x y : list Z) (v : Z) :
  length x = length y -> ctc_acc v x y = 0 <-> v = 0 /\ x = y.
Proof.
  revert y v. induction x as [|a x IH]; intros [|b y] v Hlen;
    simpl in *; try discriminate.
  - intuition.
  - rewrite IH by congruence. rewrite Z.lor_eq_0_iff, Z.lxor_eq_0_iff.
    split.
    + intros [[-> ->] ->]. auto.
    + intros [-> [= -> ->]]. auto.
Qed.

Lemma ConstantTimeCompare_eq (x y : list Z) :
  ConstantTimeCompare x y = 1 <-> x = y.
Proof.
  unfold ConstantTimeCompare.
  destruct (Nat.eqb_spec (length x) (length y)) as [Hlen|Hlen]; simpl.
  - destruct (Z.eqb_spec (ctc_acc 0 x y) 0) as [H0|H0].
    + apply ctc_acc_zero in H0; [|exact Hlen]. intuition.
    + split; [discriminate|]. intros ->. exfalso. apply H0.
      apply ctc_acc_zero; auto.
  - split; [discriminate|]. intros ->. contradiction.
Qed.

Lemma ConstantTimeCompare_neq (x y : list Z) :
  x <> y -> (ConstantTimeCompare x y =? 1) = false.
Proof.
  intros Hne. apply Z.eqb_neq. rewrite ConstantTimeCompare_eq. exact Hne.
Qed.

Lemma first_nonempty_None (vs : list string) :
  first_nonempty vs = None <-> head vs = None \/ head vs = Some "".
Proof.
  destruct vs as [|[|c v] vs]; simpl; intuition discriminate.
Qed.

Lemma first_nonempty_Some (vs : list string) (v : string) :
  first_nonempty vs = Some v <-> head vs = Some v /\ v <> "".
Proof.
  destruct vs as [|[|c w] vs]; simpl; split; try discriminate;
    try (intros [H ?]; congruence).
  intros [= <-]. split; [reflexivity|discriminate].
Qed.

Lemma values_get_Some (values : Values) (k : string) (vs : list string) :
  values !! k = Some vs -> values_get values k = vs.
Proof. unfold values_get. intros ->. reflexivity. Qed.

Lemma values_get_None (values : Values) (k : string) :
  values !! k = None -> values_get values k = [].
Proof. unfold values_get. intros ->. reflexivity. Qed.

Lemma append_cons (x : ascii) (a b : string) : String x a ++ b = String x (a ++ b).
Proof. reflexivity. Qed.

Lemma append_assoc (a b c : string) : (a ++ b) ++ c = a ++ b ++ c.
Proof.
  induction a as [|x a IH]; [reflexivity|].
  rewrite !append_cons. congruence.
Qed.

Lemma length_pos_iff (s : string) : (0 <? String.length s)%nat = false <-> s = "".
Proof. destruct s; simpl; intuition discriminate. Qed.

Lemma append_nonempty_r (a b : string) : b <> "" -> a ++ b <> "".
Proof. destruct a; [auto|discriminate]. Qed.

Lemma write_values_join (k : string) (vs : list string) (buf : string) :
  write_values k vs buf = join_onto buf (map (fun v => k ++ "=" ++ v) vs).
Proof.
  unfold write_values, join_onto. revert buf.
  induction vs as [|v vs IH]; intros buf; simpl; [reflexivity|].
  rewrite IH. reflexivity.
Qed.

Lemma join_onto_app (buf : string) (es1 es2 : list string) :
  join_onto buf (es1 ++ es2)%list = join_onto (join_onto buf es1) es2.
Proof. unfold join_onto. apply fold_left_app. Qed.

Lemma write_params_join (keys : list string) (values : Values) (buf : string) :
  write_params keys values buf = join_onto buf (entries keys values).
Proof.
  unfold write_params, entries. revert buf.
  induction keys as [|k keys IH]; intros buf; simpl; [reflexivity|].
  rewrite IH, write_values_join, join_onto_app. reflexivity.
Qed.

Lemma join_onto_concat (es : list string) (buf : string) :
  Forall (fun e => e <> "") es ->
  join_onto buf es =
    match es with
    | [] => buf
    | _ => if (0 <? String.length buf)%nat
           then buf ++ "&" ++ String.concat "&" es
           else String.concat "&" es
    end.
Proof.
  intros Hes. revert buf. induction Hes as [|e es He Hes IH]; intros buf.
  - reflexivity.
  - change (join_onto buf (e :: es))
      with (join_onto ((if (0 <? String.length buf)%nat then buf ++ "&" else buf) ++ e) es).
    rewrite IH.
    assert (Hpos : (0 <? String.length
              ((if (0 <? String.length buf)%nat then buf ++ "&" else buf) ++ e))%nat = true).
    { destruct (0 <? String.length _)%nat eqn:E at 1; [reflexivity|].
      apply length_pos_iff in E. exfalso. revert E. apply append_nonempty_r, He. }
    rewrite Hpos. clear Hpos.
    destruct es as [|e' es]; simpl String.concat;
      destruct buf as [|c buf]; try reflexivity;
      change (0 <? String.length (String c buf))%nat with true; cbv iota;
      now rewrite !append_assoc.
Qed.

Lemma entries_nonempty (keys : list string) (values : Values) :
  Forall (fun e => e <> "") (entries keys values).
Proof.
  unfold entries. rewrite Forall_forall. intros e He.
  apply list_elem_of_In, in_flat_map in He as (k & _ & He).
  apply in_map_iff in He as (v & <- & _).
  apply append_nonempty_r. discriminate.
Qed.

Lemma string1_join (ranged : list string) (values : Values) (key : string) :
  string1 ranged values key =
  bytes_of_string
    (String.concat "&" (entries (sort_Strings ranged) values ++ ["key=" ++ key])).
Proof.
  unfold string1. cbv zeta. f_equal.
  rewrite write_params_join.
  set (buf := join_onto "" _).
  transitivity (join_onto "" (entries (sort_Strings ranged) values ++ ["key=" ++ key])).
  - rewrite join_onto_app. fold buf. unfold join_onto. cbn [fold_left].
    now rewrite append_assoc.
  - rewrite join_onto_concat.
    + destruct (_ ++ _)%list eqn:E; [|reflexivity].
      destruct (entries _ _); discriminate.
    + apply Forall_app. split; [apply entries_nonempty|].
      repeat constructor. discriminate.
Qed.

Lemma sort_Strings_perm (l1 l2 : list string) :
  l1 ≡ₚ l2 -> sort_Strings l1 = sort_Strings l2.
Proof.
  intros Hp. unfold sort_Strings.
  apply (StronglySorted_unique String.le);
    try apply StronglySorted_merge_sort; try apply _.
  now rewrite !merge_sort_Permutation.
Qed.

Lemma Go_copy_ToUpper (bs : list Z) :
  Go_copy bs (bytes_ToUpper bs) = bytes_ToUpper bs.
Proof.
  unfold Go_copy, bytes_ToUpper.
  rewrite length_map, drop_all, app_nil_r.
  apply take_ge. rewrite length_map. lia.
Qed.

Lemma upper_hextable_eq (n : Z) :
  0 <= n < 16 -> upper_byte (hextable n) = upper_hextable n.
Proof.
  intros Hn. unfold upper_byte, hextable, upper_hextable.
  destruct (Z.ltb_spec n 10).
  - replace ((97 <=? 48 + n) && (48 + n <=? 122))%bool with false; [reflexivity|].
    symmetry. apply andb_false_iff. left. apply Z.leb_gt. lia.
  - replace ((97 <=? 87 + n) && (87 + n <=? 122))%bool with true; [lia|].
    symmetry. apply andb_true_iff. split; apply Z.leb_le; lia.
Qed.

Lemma hex_upper_eq (bs : list Z) :
  Forall (fun b => 0 <= b < 256) bs ->
  bytes_ToUpper (hex_Encode bs) = hex_upper bs.
Proof.
  induction 1 as [|b bs Hb _ IH]; [reflexivity|].
  unfold bytes_ToUpper in *. simpl. rewrite IH. f_equal; [|f_equal].
  - apply upper_hextable_eq. rewrite Z.shiftr_div_pow2 by lia.
    change (2 ^ 4) with 16. split.
    + apply Z.div_pos; lia.
    + apply Z.div_lt_upper_bound; lia.
  - apply upper_hextable_eq. change 15 with (Z.ones 4).
    rewrite Z.land_ones by lia. apply Z.mod_pos_bound. reflexivity.
Qed.

(** [hex.Encode] writes ASCII only, so that [bytes.ToUpper] works byte by
    byte on its output. *)
Lemma hex_Encode_ascii (bs : list Z) :
  Forall (fun b => 0 <= b < 256) bs ->
  Forall (fun c => 48 <= c <= 102) (hex_Encode bs).
Proof.
  assert (Hnibble : forall n, 0 <= n < 16 -> 48 <= hextable n <= 102).
  { intros n Hn. unfold hextable. destruct (Z.ltb_spec n 10); lia. }
  induction 1 as [|b bs Hb _ IH]; [constructor|].
  cbn [hex_Encode]. apply Forall_cons. split; [|apply Forall_cons; split].
  - apply Hnibble. rewrite Z.shiftr_div_pow2 by lia. change (2 ^ 4) with 16.
    split.
    + apply Z.div_pos; lia.
    + apply Z.div_lt_upper_bound; lia.
  - apply Hnibble. change 15 with (Z.ones 4). rewrite Z.land_ones by lia.
    apply Z.mod_pos_bound. reflexivity.
  - exact IH.
Qed.

Lemma digit_of_range (c : ascii) (v : Z) : digit_of c = Some v -> 0 <= v <= 9.
Proof.
  unfold digit_of.
  destruct (Z.leb_spec 48 (byte_of_ascii c)), (Z.leb_spec (byte_of_ascii c) 57);
    simpl; intros [= <-]; lia.
Qed.

Lemma parse_digits_nonneg (s : string) (n un : Z) :
  0 <= n -> parse_digits s n = inr un -> 0 <= un.
Proof.
  revert n. induction s as [|c s IH]; intros n Hn; simpl.
  - now intros [= <-].
  - destruct (digit_of c) as [v|] eqn:Hv; [|discriminate].
    apply digit_of_range in Hv.
    destruct (n >=? maxUint64 / 10 + 1); [discriminate|].
    destruct (n * 10 + v >? maxUint64); [discriminate|].
    apply IH. lia.
Qed.

(** What [ParseInt] returns fits [int64], hence [int]: carrying the fields
    in [Z] loses nothing. *)
Lemma ParseInt_range (s : string) (n : Z) :
  ParseInt s = inr n -> - 2 ^ 63 <= n < 2 ^ 63.
Proof.
  unfold ParseInt. destruct s as [|c rest]; [discriminate|].
  destruct (if Ascii.eqb c "+" then _ else _) as [neg body].
  destruct (ParseUint body) as [k|un] eqn:Hun; [discriminate|].
  assert (0 <= un).
  { unfold ParseUint in Hun. destruct body; [discriminate|].
    now apply (parse_digits_nonneg _ 0 un) in Hun. }
  destruct neg; cbn [negb andb].
  - destruct (Z.gtb_spec un (2 ^ 63)); [discriminate|]. intros [= <-]. lia.
  - destruct (Z.geb_spec un (2 ^ 63)); [discriminate|]. intros [= <-]. lia.
Qed.

Lemma le_bytes_range (n : nat) (x : Z) :
  Forall (fun b => 0 <= b < 256) (MD5.le_bytes n x).
Proof.
  unfold MD5.le_bytes. apply Forall_forall. intros b Hb.
  apply list_elem_of_In, in_map_iff in Hb as (i & <- & _).
  change 255 with (Z.ones 8). rewrite Z.land_ones by lia.
  apply Z.mod_pos_bound. reflexivity.
Qed.

Lemma MD5_Sum_range (data : list Z) :
  Forall (fun b => 0 <= b < 256) (MD5.Sum data).
Proof.
  unfold MD5.Sum. cbv zeta.
  destruct (fold_left MD5.block _ MD5.init) as [a b c d].
  repeat (apply Forall_app; split); apply le_bytes_range.
Qed.

(** The digest of lines 99-102 is the upper-case hexadecimal MD5 of
    [string1]. *)
Lemma hashSumHexBytes_digest (ranged : list string) (values : Values)
    (key : string) :
  hashSumHexBytes ranged values key = hex_upper (MD5.Sum (string1 ranged values key)).
Proof.
  unfold hashSumHexBytes. cbv zeta. rewrite Go_copy_ToUpper.
  apply hex_upper_eq, MD5_Sum_range.
Qed.

Lemma elem_of_map_keys (values : Values) (k : string) :
  k ∈ map_keys values <-> is_Some (values !! k).
Proof.
  unfold map_keys. rewrite list_elem_of_fmap. split.
  - intros ([k' vs] & -> & Hin). apply elem_of_map_to_list in Hin. eauto.
  - intros [vs Hvs]. exists (k, vs). split; [reflexivity|].
    now apply elem_of_map_to_list.
Qed.

Lemma map_keys_delete (values : Values) :
  filter (fun k => k <> "sign") (map_keys values)
    ≡ₚ map_keys (delete "sign" values).
Proof.
  apply NoDup_Permutation.
  - apply NoDup_filter, NoDup_fst_map_to_list.
  - apply NoDup_fst_map_to_list.
  - intros k. rewrite list_elem_of_filter, !elem_of_map_keys.
    destruct (decide (k = "sign")) as [->|Hne].
    + rewrite lookup_delete_eq. split; [intros [? _]; congruence|].
      intros [? ?]; discriminate.
    + rewrite lookup_delete_ne by congruence. tauto.
Qed.

Lemma values_get_delete (values : Values) (k : string) :
  k <> "sign" -> values_get (delete "sign" values) k = values_get values k.
Proof. intros Hne. unfold values_get. now rewrite lookup_delete_ne by congruence. Qed.

Lemma entries_delete (keys : list string) (values : Values) :
  "sign" ∉ keys -> entries keys (delete "sign" values) = entries keys values.
Proof.
  unfold entries. induction keys as [|k keys IH]; intros Hnot; [reflexivity|].
  apply not_elem_of_cons in Hnot as [Hne Hnot]. simpl.
  rewrite IH, values_get_delete by auto. reflexivity.
Qed.

Lemma spec_keys_no_sign (values : Values) : "sign" ∉ spec_keys values.
Proof.
  unfold spec_keys. rewrite merge_sort_Permutation, list_elem_of_filter. tauto.
Qed.

(** Whatever order [range] produced, sorting gives the sorted keys other than
    [sign]. *)
Lemma sort_ranged (ranged : list string) (values : Values) :
  ranged ≡ₚ map_keys (delete "sign" values) ->
  sort_Strings ranged = spec_keys values.
Proof.
  intros Hp. unfold spec_keys. apply sort_Strings_perm.
  now rewrite Hp, map_keys_delete.
Qed.

Lemma string1_joined (ranged : list string) (values : Values) (key : string) :
  ranged ≡ₚ map_keys (delete "sign" values) ->
  string1 ranged (delete "sign" values) key =
  bytes_of_string (joined_string values key).
Proof.
  intros Hp. rewrite string1_join, (sort_ranged _ _ Hp).
  rewrite entries_delete by apply spec_keys_no_sign. reflexivity.
Qed.

Lemma joined_string_cases (values : Values) (key : string) :
  joined_string values key =
    match entries (spec_keys values) values with
    | [] => "key=" ++ key
    | _ => spec_string values key
    end.
Proof.
  unfold joined_string, spec_string.
  pose proof (entries_nonempty (spec_keys values) values) as Hne.
  induction (entries (spec_keys values) values) as [|e es IH]; [reflexivity|].
  apply Forall_cons in Hne as [He Hes].
  destruct es as [|e' es]; [reflexivity|].
  specialize (IH Hes). cbn [app] in *.
  change (String.concat "&" (e :: e' :: ?l))
    with (e ++ "&" ++ String.concat "&" (e' :: l)).
  rewrite IH. now rewrite !append_assoc.
Qed.

(** ** Running the body step by step *)

Section Body.

Context {Time : Type}.
Variable ParseTime : string -> string + Time.

Implicit Types (data : NotifyURLData Time) (values : Values).

Lemma run_bind {A B} (c : init Time A) (k : A -> init Time B) data data' a :
  c data = (data', inr a) -> bind c k data = k a data'.
Proof. unfold bind. intros ->. reflexivity. Qed.

Lemma run_default (set : string -> NotifyURLData Time -> NotifyURLData Time)
    (dflt : string) (o : option string) data :
  match o with Some v => assign (set v) | None => assign (set dflt) end data
  = (set (default dflt o) data, inr tt).
Proof. destruct o; reflexivity. Qed.

Lemma run_head (set : string -> NotifyURLData Time -> NotifyURLData Time)
    (vs : list string) data :
  match vs with v :: _ => assign (set v) | [] => ret tt end data
  = (match vs with v :: _ => set v | [] => fun d => d end data, inr tt).
Proof. destruct vs; reflexivity. Qed.

Lemma run_required (set : string -> NotifyURLData Time -> NotifyURLData Time)
    (e : error) values k data :
  present values k = true ->
  match first_nonempty (values_get values k) with
  | Some v => assign (set v)
  | None => fail e
  end data
  = (set (default "" (first_nonempty (values_get values k))) data, inr tt).
Proof.
  unfold present. destruct (first_nonempty _); [reflexivity|discriminate].
Qed.

Lemma run_required_int (set : Z -> NotifyURLData Time -> NotifyURLData Time)
    (e : error) values k data :
  int_present values k = true ->
  match first_nonempty (values_get values k) with
  | Some v => parse_into set v
  | None => fail e
  end data
  = (set (int_after values k 0) data, inr tt).
Proof.
  unfold int_present, int_after, int_param, parse_into.
  destruct (first_nonempty _) as [v|]; [|discriminate]. simpl.
  destruct (ParseInt v); [discriminate|reflexivity].
Qed.

Lemma run_optional_int (set : Z -> NotifyURLData Time -> NotifyURLData Time)
    values k data :
  int_optional values k = true ->
  match first_nonempty (values_get values k) with
  | Some v => parse_into set v
  | None => ret tt
  end data
  = (match int_param values k with
     | Some (inr n) => set n
     | _ => fun d => d
     end data, inr tt).
Proof.
  unfold int_optional, int_param, parse_into.
  destruct (first_nonempty _) as [v|]; [|reflexivity]. simpl.
  destruct (ParseInt v); [discriminate|reflexivity].
Qed.

Lemma run_index (set : Z -> NotifyURLData Time -> NotifyURLData Time)
    values k data :
  int_optional values k = true ->
  match first_nonempty (values_get values k) with
  | Some v => parse_into set v
  | None => assign (set 1)
  end data
  = (set (int_after values k 1) data, inr tt).
Proof.
  unfold int_optional, int_after, int_param, parse_into.
  destruct (first_nonempty _) as [v|]; [|reflexivity]. simpl.
  destruct (ParseInt v); [discriminate|reflexivity].
Qed.

Lemma run_time values :
  time_present ParseTime values = true ->
  exists t, forall data,
  match first_nonempty (values_get values "time_end") with
  | Some v =>
      match ParseTime v with
      | inl err => fail (ParseTimeError err)
      | inr t => assign (set_TimeEnd t)
      end
  | None => fail (errors_New "time_end is empty")
  end data
  = (set_TimeEnd t data, inr tt).
Proof.
  unfold time_present.
  destruct (first_nonempty _) as [v|]; [|discriminate].
  destruct (ParseTime v) as [|t]; [discriminate|]. exists t. reflexivity.
Qed.

Lemma peel_head {B} (proj : NotifyURLData Time -> B)
    (set : string -> NotifyURLData Time -> NotifyURLData Time)
    (vs : list string) data :
  (forall v d, proj (set v d) = proj d) ->
  proj (match vs with v :: _ => set v | [] => fun d => d end data) = proj data.
Proof. intros Hset. destruct vs; auto. Qed.

Lemma peel_int {B} (proj : NotifyURLData Time -> B)
    (set : Z -> NotifyURLData Time -> NotifyURLData Time)
    (o : option (error + Z)) data :
  (forall n d, proj (set n d) = proj d) ->
  proj (match o with Some (inr n) => set n | _ => fun d => d end data)
  = proj data.
Proof. intros Hset. destruct o as [[|]|]; auto. Qed.

Ltac peel :=
  repeat first
    [ rewrite peel_head by reflexivity
    | rewrite peel_int by reflexivity
    | progress
        cbn [ServiceVersion Charset Signature SignMethod SignKeyIndex
             TransportFee ProductFee TotalFee FeeType
             set_ServiceVersion set_Charset set_Signature set_SignMethod
             set_SignKeyIndex set_NotifyId set_TradeMode set_TradeState
             set_PayInfo set_BankBillNo set_TransactionId set_TimeEnd
             set_BankType set_PartnerId set_OutTradeNo set_Attach
             set_TotalFee set_Discount set_TransportFee set_ProductFee] ].

Ltac split_andb :=
  repeat match goal with
  | H : (_ && _)%bool = true |- _ => apply andb_true_iff in H as [? ?]
  end.

Ltac run_with lem :=
  erewrite run_bind; [|apply lem; assumption].

(** Under [reaches_fee_check] the body runs down to the fee check of lines
    247-251 on a record [reached] whose protocol and fee fields are known,
    and what it returns is decided there and in lines 253-267. *)
Lemma init_fields_reaches values (signature : string) data :
  reaches_fee_check ParseTime values = true ->
  exists reached,
    (ServiceVersion reached
       = default "1.0" (first_nonempty (values_get values "service_version")) /\
     Charset reached
       = default "GBK" (first_nonempty (values_get values "input_charset")) /\
     Signature reached = signature /\
     SignMethod reached
       = default "MD5" (first_nonempty (values_get values "sign_type")) /\
     SignKeyIndex reached = int_after values "sign_key_index" 1) /\
    (TransportFee reached = transport_fee_of data values /\
     ProductFee reached = product_fee_of data values /\
     TotalFee reached = total_fee_of data values /\
     FeeType reached = FeeType data) /\
    init_fields ParseTime values signature data =
      if negb (TransportFee reached =? 0) || negb (ProductFee reached =? 0) then
        if negb (int_add (TransportFee reached) (ProductFee reached)
                 =? TotalFee reached)
        then (reached, inl InconsistentFees)
        else fee_type_and_alias values reached
      else fee_type_and_alias values reached.
Proof.
  intros Hreach. unfold reaches_fee_check in Hreach. split_andb.
  destruct (run_time values) as [t Ht]; [assumption|].
  unfold init_fields.
  erewrite run_bind; [|apply run_default].
  erewrite run_bind; [|apply run_default].
  erewrite run_bind; [|reflexivity].
  erewrite run_bind; [|apply run_default].
  run_with run_index.
  run_with run_required.
  run_with run_required_int.
  run_with run_required_int.
  erewrite run_bind; [|apply run_head].
  erewrite run_bind; [|apply run_head].
  run_with run_required.
  erewrite run_bind; [|apply Ht].
  run_with run_required.
  run_with run_required.
  run_with run_required.
  erewrite run_bind; [|apply run_head].
  run_with run_required_int.
  run_with run_optional_int.
  run_with run_optional_int.
  run_with run_optional_int.
  erewrite run_bind; [|reflexivity].
  match goal with
  | |- context [bind _ _ ?d] => exists d
  end.
  split; [|split].
  - repeat split; peel; reflexivity.
  - unfold transport_fee_of, product_fee_of, total_fee_of, int_after.
    repeat split.
    + rewrite peel_int by reflexivity.
      destruct (int_param values "transport_fee") as [[|]|]; peel; reflexivity.
    + destruct (int_param values "product_fee") as [[|]|]; peel; reflexivity.
    + unfold int_present in *.
      destruct (int_param values "total_fee") as [[|]|]; try discriminate.
      peel. reflexivity.
    + peel. reflexivity.
  - match goal with
    | |- context [bind _ _ ?d] => generalize d
    end.
    intros reached. unfold bind, fee_type_and_alias, parse_into, InconsistentFees.
    destruct (negb (TransportFee reached =? 0) || negb (ProductFee reached =? 0))%bool;
      [destruct (negb (int_add _ _ =? _)); [reflexivity|]|];
      cbn [ret];
      (destruct (first_nonempty (values_get values "fee_type")) as [v|];
       [destruct (ParseInt v); [reflexivity|]|reflexivity]);
      destruct (values_get values "buyer_alias"); reflexivity.
Qed.


(** The body reads no [sign] parameter, so it runs alike on the map with and
    without that key. *)
Lemma init_fields_delete values (signature : string) data :
  init_fields ParseTime (delete "sign" values) signature data
  = init_fields ParseTime values signature data.
Proof.
  unfold init_fields. rewrite !values_get_delete by discriminate. reflexivity.
Qed.

(** *** Which errors the body returns *)

Lemma errs_bind {A B} (P : error -> Prop) (c : init Time A)
    (k : A -> init Time B) :
  errs P c -> (forall a, errs P (k a)) -> errs P (bind c k).
Proof.
  unfold errs, bind. intros Hc Hk data data' e.
  destruct (c data) as [d [e'|a]] eqn:Hcd.
  - intros [= <- <-]. eauto.
  - eauto.
Qed.

Lemma errs_assign (P : error -> Prop) f : errs P (assign (Time := Time) f).
Proof. intros data data' e. discriminate. Qed.

Lemma errs_ret {A} (P : error -> Prop) (a : A) : errs P (ret (Time := Time) a).
Proof. intros data data' e. discriminate. Qed.

Lemma errs_read (P : error -> Prop) : errs P (read (Time := Time)).
Proof. intros data data' e. discriminate. Qed.

Lemma errs_fail {A} (P : error -> Prop) (e : error) :
  P e -> errs P (fail (Time := Time) (A := A) e).
Proof. intros He data data' e' [= _ <-]. exact He. Qed.

Lemma errs_parse_into (P : error -> Prop) set (v : string) :
  (forall k, P (NumError "ParseInt" v k)) ->
  errs P (parse_into (Time := Time) set v).
Proof.
  intros HP data data' e. unfold parse_into.
  destruct (ParseInt v) as [e'|n] eqn:Hparse; [|discriminate].
  intros [= _ <-]. revert Hparse. unfold ParseInt.
  destruct v as [|c rest]; [intros [= <-]; apply HP|].
  destruct (if Ascii.eqb c "+" then _ else _) as [neg body].
  destruct (ParseUint body) as [k|un]; [intros [= <-]; apply HP|].
  repeat match goal with
  | |- context [if ?b then _ else _] => destruct b
  end; intros [= <-]; apply HP.
Qed.

Ltac errs_tac :=
  repeat first
    [ apply errs_bind; [|intros ?]
    | match goal with
      | |- errs _ (match ?x with _ => _ end) => destruct x
      end
    | apply errs_assign
    | apply errs_ret
    | apply errs_read
    | apply errs_parse_into; intros ?; exact I
    | apply errs_fail; first [exact I | cbn [body_error]; repeat constructor] ].

Lemma init_fields_errs values (signature : string) :
  errs body_error (init_fields ParseTime values signature).
Proof. unfold init_fields. errs_tac. Qed.

(** *** Which fields the later statements leave alone *)

Lemma keeps_bind {A B C} (proj : NotifyURLData Time -> C) (c : init Time A)
    (k : A -> init Time B) :
  keeps proj c -> (forall a, keeps proj (k a)) -> keeps proj (bind c k).
Proof.
  unfold keeps, bind. intros Hc Hk data. specialize (Hc data).
  destruct (c data) as [d [e|a]]; simpl in *; [exact Hc|].
  now rewrite Hk.
Qed.

Lemma keeps_assign {C} (proj : NotifyURLData Time -> C) f :
  (forall d, proj (f d) = proj d) -> keeps proj (assign f).
Proof. intros Hf data. apply Hf. Qed.

Lemma keeps_ret {A C} (proj : NotifyURLData Time -> C) (a : A) :
  keeps proj (ret a).
Proof. intros data. reflexivity. Qed.

Lemma keeps_fail {A C} (proj : NotifyURLData Time -> C) (e : error) :
  keeps proj (fail (A := A) e).
Proof. intros data. reflexivity. Qed.

Lemma keeps_read {C} (proj : NotifyURLData Time -> C) : keeps proj read.
Proof. intros data. reflexivity. Qed.

Lemma keeps_parse_into {C} (proj : NotifyURLData Time -> C) set (v : string) :
  (forall n d, proj (set n d) = proj d) -> keeps proj (parse_into set v).
Proof.
  intros Hset data. unfold parse_into. destruct (ParseInt v); [reflexivity|].
  apply Hset.
Qed.

Ltac keeps_tac :=
  repeat first
    [ apply keeps_bind; [|intros ?]
    | match goal with
      | |- keeps _ (match ?x with _ => _ end) => destruct x
      end
    | apply keeps_ret
    | apply keeps_fail
    | apply keeps_read
    | apply keeps_assign; reflexivity
    | apply keeps_parse_into; reflexivity ].

(** Whatever comes of the body, its first four statements have run: the
    protocol fields hold the received values or their defaults. *)
Lemma init_fields_protocol values (signature : string) data :
  let data' := (init_fields ParseTime values signature data).1 in
  ServiceVersion data'
    = default "1.0" (first_nonempty (values_get values "service_version")) /\
  Charset data'
    = default "GBK" (first_nonempty (values_get values "input_charset")) /\
  Signature data' = signature /\
  SignMethod data'
    = default "MD5" (first_nonempty (values_get values "sign_type")).
Proof.
  cbv zeta. unfold init_fields.
  erewrite run_bind; [|apply run_default].
  erewrite run_bind; [|apply run_default].
  erewrite run_bind; [|reflexivity].
  erewrite run_bind; [|apply run_default].
  repeat split;
    match goal with
    | |- ?proj (bind ?c ?k ?d).1 = _ =>
        transitivity (proj d);
        [apply (keeps_bind proj c k); [|intros ?]; keeps_tac | reflexivity]
    end.
Qed.

End Body.

(** ** CheckAndInit *)

Section Properties.

Context {Time : Type}.
Variable ParseTime : string -> string + Time.
Variable rangeKeys : Values -> list string.
Hypothesis rangeKeys_perm : forall values, rangeKeys values ≡ₚ map_keys values.

Implicit Types (data : NotifyURLData Time) (values : Values).

Abbreviation CheckAndInit := (CheckAndInit ParseTime rangeKeys).
Abbreviation digest values key :=
  (hashSumHexBytes (rangeKeys (delete "sign" values)) (delete "sign" values) key).

(** What the call does once a non-empty first [sign] value is there. *)
Lemma CheckAndInit_signed data values key (signature : string) :
  first_nonempty (values_get values "sign") = Some signature ->
  CheckAndInit data (Some values) key =
    if negb (ConstantTimeCompare (bytes_of_string signature) (digest values key) =? 1)
    then mkOutcome data (Some (delete "sign" values)) (Some SignatureMismatch)
    else
      let r := init_fields ParseTime values signature data in
      mkOutcome r.1 (Some (delete "sign" values))
        (match r.2 with inl err => Some err | inr _ => None end).
Proof.
  intros Hsig. unfold CheckAndInit. rewrite Hsig.
  destruct (negb _); [reflexivity|].
  rewrite init_fields_delete.
  destruct (init_fields _ _ _ _) as [d [e|[]]]; reflexivity.
Qed.

Lemma CheckAndInit_verified data values key :
  correctly_signed rangeKeys values key = true ->
  CheckAndInit data (Some values) key =
    let r := init_fields ParseTime values (received_signature values) data in
    mkOutcome r.1 (Some (delete "sign" values))
      (match r.2 with inl err => Some err | inr _ => None end).
Proof.
  unfold correctly_signed, received_signature.
  destruct (first_nonempty (values_get values "sign")) as [signature|] eqn:Hsig;
    [|discriminate].
  intros Hok. apply bool_decide_eq_true in Hok.
  rewrite (CheckAndInit_signed _ _ _ _ Hsig).
  apply ConstantTimeCompare_eq in Hok. rewrite Hok. reflexivity.
Qed.

Lemma not_body_error_SignatureMismatch : ~ body_error SignatureMismatch.
Proof.
  cbn. rewrite !elem_of_cons, elem_of_nil. intuition discriminate.
Qed.

(** C1: a non-empty first [sign] value that differs from the digest over the
    remaining parameters makes [CheckAndInit] return the signature-mismatch
    error, with the receiver exactly as it was: no field is written. *)
Theorem CheckAndInit_signature_mismatch data values key
    (signature : string) (others : list string) :
  values !! "sign" = Some (signature :: others) ->
  signature <> "" ->
  bytes_of_string signature <> digest values key ->
  out_err (CheckAndInit data (Some values) key) = Some SignatureMismatch /\
  out_data (CheckAndInit data (Some values) key) = data.
Proof.
  intros Hsign Hne Hdiff.
  assert (Hfirst : first_nonempty (values_get values "sign") = Some signature).
  { rewrite (values_get_Some _ _ _ Hsign). apply first_nonempty_Some. auto. }
  rewrite (CheckAndInit_signed _ _ _ _ Hfirst).
  rewrite ConstantTimeCompare_neq by exact Hdiff. split; reflexivity.
Qed.

(** C2 (amended): the digest compared with the received signature is the
    upper-case hexadecimal MD5 of the ['&']-separated sequence made of the
    [key=value] entries (keys other than [sign] in ascending byte order,
    values in arrival order) and of the final entry [key=<secretKey>]: the
    final entry is preceded by ['&'] when some entry comes before it, which
    gives the specification's string, and stands alone otherwise.  The call
    returns the signature-mismatch error exactly when the received signature
    differs from that digest. *)
Theorem CheckAndInit_digest data values key (signature : string) :
  first_nonempty (values_get values "sign") = Some signature ->
  digest values key = digest_of (joined_string values key) /\
  joined_string values key =
    match entries (spec_keys values) values with
    | [] => "key=" ++ key
    | _ => spec_string values key
    end /\
  (out_err (CheckAndInit data (Some values) key) = Some SignatureMismatch <->
   bytes_of_string signature <> digest_of (joined_string values key)).
Proof.
  intros Hsig.
  assert (Hdigest : digest values key = digest_of (joined_string values key)).
  { rewrite hashSumHexBytes_digest, string1_joined by apply rangeKeys_perm.
    reflexivity. }
  split; [exact Hdigest|]. split; [apply joined_string_cases|].
  rewrite (CheckAndInit_signed _ _ _ _ Hsig), <- Hdigest.
  destruct (decide (bytes_of_string signature = digest values key)) as [Heq|Hne].
  - apply ConstantTimeCompare_eq in Heq as Hone. rewrite Hone. cbn [negb Z.eqb].
    cbv zeta. cbn [out_err]. split; [|intros Hn; contradiction].
    destruct (init_fields _ _ _ _) as [d [e|[]]] eqn:Hrun; cbn; [|discriminate].
    intros [= ->]. exfalso. apply not_body_error_SignatureMismatch.
    exact (init_fields_errs ParseTime _ _ _ _ _ Hrun).
  - rewrite ConstantTimeCompare_neq by exact Hne. cbn. tauto.
Qed.

(** C8: the caller's map comes back either as it was or with the [sign] key
    deleted; every other key keeps its values, on success and on failure. *)
Theorem CheckAndInit_values_frame data (values : option Values) key (k : string) :
  k <> "sign" ->
  match values, out_values (CheckAndInit data values key) with
  | Some before, Some after =>
      (after = before \/ after = delete "sign" before) /\
      after !! k = before !! k
  | None, None => True
  | _, _ => False
  end.
Proof.
  intros Hk. destruct values as [values|]; [|exact I].
  destruct (first_nonempty (values_get values "sign")) as [signature|] eqn:Hsig.
  - rewrite (CheckAndInit_signed _ _ _ _ Hsig).
    destruct (negb _); cbn; (split; [auto|]); now apply lookup_delete_ne.
  - unfold CheckAndInit. rewrite Hsig. cbn. auto.
Qed.

(** C9 (amended): the nil map is refused with "values == nil"; every map
    that is not nil, the empty map included, in which [sign] is missing, has
    no value or has an empty first value is refused with "sign is empty". *)
Theorem CheckAndInit_no_signature data key :
  out_err (CheckAndInit data None key) = Some InvalidInput /\
  forall values,
    values !! "sign" = None \/ values !! "sign" = Some [] \/
    (exists others, values !! "sign" = Some ("" :: others)) ->
    out_err (CheckAndInit data (Some values) key) = Some MissingSignature.
Proof.
  split; [reflexivity|]. intros values Hsign.
  assert (Hnone : first_nonempty (values_get values "sign") = None).
  { destruct Hsign as [H|[H|[others H]]].
    - now rewrite (values_get_None _ _ H).
    - now rewrite (values_get_Some _ _ _ H).
    - now rewrite (values_get_Some _ _ _ H). }
  unfold CheckAndInit. rewrite Hnone. reflexivity.
Qed.

Ltac early_return :=
  intros [= <-]; split;
  [ reflexivity
  | intros H1 H2 H3; exfalso;
    first [apply H1; reflexivity | apply H2; reflexivity | apply H3; reflexivity] ].

(** C7 (amended): when the call returns "values == nil", "sign is empty" or
    the signature-mismatch error, the receiver is left exactly as it was;
    every other error is returned after the signature has been verified
    (the map is not nil and its first [sign] value is the digest of the
    other parameters), and by then the receiver already holds the protocol
    fields (service version, charset, signature, signing method), received
    or defaulted. *)
Theorem CheckAndInit_error_data data (values : option Values) key (e : error) :
  out_err (CheckAndInit data values key) = Some e ->
  (e = InvalidInput \/ e = MissingSignature \/ e = SignatureMismatch ->
   out_data (CheckAndInit data values key) = data) /\
  (e <> InvalidInput -> e <> MissingSignature -> e <> SignatureMismatch ->
   exists params (signature : string),
     values = Some params /\
     first_nonempty (values_get params "sign") = Some signature /\
     correctly_signed rangeKeys params key = true /\
     let data' := out_data (CheckAndInit data values key) in
     ServiceVersion data'
       = default "1.0" (first_nonempty (values_get params "service_version")) /\
     Charset data'
       = default "GBK" (first_nonempty (values_get params "input_charset")) /\
     Signature data' = signature /\
     SignMethod data'
       = default "MD5" (first_nonempty (values_get params "sign_type"))).
Proof.
  destruct values as [values|]; [|early_return].
  destruct (first_nonempty (values_get values "sign")) as [signature|] eqn:Hsig.
  - rewrite (CheckAndInit_signed _ _ _ _ Hsig).
    destruct (decide (bytes_of_string signature = digest values key))
      as [Hverified|Hdiffer];
      [|rewrite ConstantTimeCompare_neq by exact Hdiffer; early_return].
    apply ConstantTimeCompare_eq in Hverified as Hone. rewrite Hone.
    cbn [negb Z.eqb]. cbv zeta. cbn [out_err out_data].
    destruct (init_fields _ _ _ _) as [d [e'|[]]] eqn:Hrun; cbn [fst snd];
      [|discriminate].
    intros [= ->]. pose proof (init_fields_errs ParseTime _ _ _ _ _ Hrun) as He.
    split.
    + intros [-> | [-> | ->]]; exfalso; revert He; cbn;
        rewrite !elem_of_cons, elem_of_nil; intuition discriminate.
    + intros _ _ _. exists values, signature. split; [reflexivity|].
      split; [exact Hsig|]. split.
      { unfold correctly_signed. rewrite Hsig.
        now apply bool_decide_eq_true. }
      pose proof (init_fields_protocol ParseTime values signature data) as Hp.
      rewrite Hrun in Hp. exact Hp.
  - unfold CheckAndInit. rewrite Hsig. early_return.
Qed.


Lemma entries_nil (keys : list string) values :
  (forall k, k ∈ keys -> values_get values k = []) -> entries keys values = [].
Proof.
  unfold entries. induction keys as [|k keys IH]; intros Hnil; [reflexivity|].
  simpl. rewrite (Hnil k) by (apply elem_of_cons; auto).
  apply IH. intros k' Hk'. apply Hnil, elem_of_cons. auto.
Qed.

(** C10: when no parameter other than [sign] has a value, in particular
    when [sign] is the only key, the string that is hashed is exactly
    [key=<secretKey>], with no ['&'] in front, and the digest compared with
    the signature is the digest of that string. *)
Theorem string1_sign_only values key :
  (forall k, k <> "sign" -> values_get values k = []) ->
  string1 (rangeKeys (delete "sign" values)) (delete "sign" values) key
    = bytes_of_string ("key=" ++ key) /\
  digest values key = digest_of ("key=" ++ key).
Proof.
  intros Honly.
  assert (Hstring :
    string1 (rangeKeys (delete "sign" values)) (delete "sign" values) key
    = bytes_of_string ("key=" ++ key)).
  { rewrite string1_joined by apply rangeKeys_perm.
    rewrite joined_string_cases, entries_nil; [reflexivity|].
    intros k Hk. apply Honly. intros ->.
    exact (spec_keys_no_sign values Hk). }
  split; [exact Hstring|].
  rewrite hashSumHexBytes_digest, Hstring. reflexivity.
Qed.

Lemma fee_type_and_alias_error values data data' (e : error) :
  fee_type_and_alias values data = (data', inl e) -> e <> InconsistentFees.
Proof.
  unfold fee_type_and_alias.
  destruct (first_nonempty (values_get values "fee_type")) as [v|];
    [|intros [= _ <-]; discriminate].
  destruct (ParseInt v) as [e'|n] eqn:Hparse; [|discriminate].
  intros [= _ <-].
  pose proof (errs_parse_into (Time := Time) (fun e => e <> InconsistentFees)
                set_FeeType v) as Herr.
  apply (Herr (fun k => ltac:(discriminate)) data data e').
  unfold parse_into. now rewrite Hparse.
Qed.

(** C5 (amended): for a correctly signed parameter set in which every field
    read before the fee check is acceptable, with [transport], [product] and
    [total] the fee fields of the record at the check (the parsed parameter,
    or what the record held before when the parameter is absent or empty)
    and [+] the addition of Go's [int]: if [transport] or [product] is
    non-zero and [transport + product] differs from [total] the call fails
    with the inconsistent-fees error; if the sum equals [total], or if both
    are zero, the call does not return that error. *)
Theorem CheckAndInit_fee_check data values key :
  correctly_signed rangeKeys values key = true ->
  reaches_fee_check ParseTime values = true ->
  let transport := transport_fee_of data values in
  let product := product_fee_of data values in
  let total := total_fee_of data values in
  (transport <> 0 \/ product <> 0 ->
   int_add transport product <> total ->
   out_err (CheckAndInit data (Some values) key) = Some InconsistentFees) /\
  (int_add transport product = total ->
   out_err (CheckAndInit data (Some values) key) <> Some InconsistentFees) /\
  (transport = 0 -> product = 0 ->
   out_err (CheckAndInit data (Some values) key) <> Some InconsistentFees).
Proof.
  intros Hsigned Hreach. cbv zeta.
  rewrite (CheckAndInit_verified _ _ _ Hsigned). cbv zeta. cbn [out_err].
  destruct (init_fields_reaches ParseTime values (received_signature values)
              data Hreach)
    as (reached & _ & (Ht & Hp & Htot & _) & ->).
  rewrite Ht, Hp, Htot.
  assert (Hpass : forall r,
    fee_type_and_alias values reached = r ->
    match r.2 with inl err => Some err | inr _ => None end
    <> Some InconsistentFees).
  { intros [d [e|[]]] Hr; cbn; [|discriminate].
    intros [= ->]. now apply fee_type_and_alias_error in Hr. }
  repeat split.
  - intros Hnz Hsum.
    destruct (negb (_ =? 0) || negb (_ =? 0))%bool eqn:Hany.
    + apply Z.eqb_neq in Hsum. rewrite Hsum. reflexivity.
    + apply orb_false_iff in Hany as [H1 H2].
      apply negb_false_iff, Z.eqb_eq in H1, H2. tauto.
  - intros Hsum. apply Z.eqb_eq in Hsum. rewrite Hsum.
    destruct (negb (_ =? 0) || negb (_ =? 0))%bool; now apply Hpass.
  - intros -> ->. now apply Hpass.
Qed.

(** C6 (amended): for a correctly signed parameter set that is valid up to
    and including the fee check and in which [fee_type] is absent or empty,
    the call fails with "fee_type is empty"; no default is applied, and the
    fee type of the record is left as it was. *)
Theorem CheckAndInit_fee_type_required data values key :
  correctly_signed rangeKeys values key = true ->
  valid_but_fee_type ParseTime data values = true ->
  present values "fee_type" = false ->
  out_err (CheckAndInit data (Some values) key)
    = Some (errors_New "fee_type is empty") /\
  FeeType (out_data (CheckAndInit data (Some values) key)) = FeeType data.
Proof.
  intros Hsigned Hvalid Habsent.
  apply andb_true_iff in Hvalid as [Hreach Hfees].
  rewrite (CheckAndInit_verified _ _ _ Hsigned). cbv zeta. cbn [out_err out_data].
  destruct (init_fields_reaches ParseTime values (received_signature values)
              data Hreach)
    as (reached & _ & (Ht & Hp & Htot & Hft) & ->).
  rewrite Ht, Hp, Htot.
  assert (Hrest : fee_type_and_alias values reached
                  = (reached, inl (errors_New "fee_type is empty"))).
  { unfold fee_type_and_alias. unfold present in Habsent.
    destruct (first_nonempty (values_get values "fee_type"));
      [discriminate|reflexivity]. }
  unfold fees_consistent in Hfees.
  apply orb_true_iff in Hfees as [Hzero|Hsum].
  - apply andb_true_iff in Hzero as [H1 H2]. rewrite H1, H2. cbn [negb orb].
    rewrite Hrest. auto.
  - rewrite Hsum. cbn [negb]. rewrite Hrest.
    destruct (negb _ || negb _)%bool; auto.
Qed.

(** C4: for a correctly signed, otherwise valid parameter set in which
    [service_version], [input_charset], [sign_type] and [sign_key_index] are
    absent or have an empty first value, the call succeeds and the record
    holds the defaults "1.0", "GBK", "MD5" and 1. *)
Theorem CheckAndInit_protocol_defaults data values key :
  correctly_signed rangeKeys values key = true ->
  otherwise_valid ParseTime data values = true ->
  present values "service_version" = false ->
  present values "input_charset" = false ->
  present values "sign_type" = false ->
  present values "sign_key_index" = false ->
  out_err (CheckAndInit data (Some values) key) = None /\
  ServiceVersion (out_data (CheckAndInit data (Some values) key)) = "1.0" /\
  Charset (out_data (CheckAndInit data (Some values) key)) = "GBK" /\
  SignMethod (out_data (CheckAndInit data (Some values) key)) = "MD5" /\
  SignKeyIndex (out_data (CheckAndInit data (Some values) key)) = 1.
Proof.
  intros Hsigned Hvalid Hv Hc Hm Hi.
  apply andb_true_iff in Hvalid as [Hvalid Hfee_type].
  apply andb_true_iff in Hvalid as [Hreach Hfees].
  rewrite (CheckAndInit_verified _ _ _ Hsigned). cbv zeta. cbn [out_err out_data].
  destruct (init_fields_reaches ParseTime values (received_signature values)
              data Hreach)
    as (reached & (Hsv & Hcs & _ & Hsm & Hidx) & (Ht & Hp & Htot & _) & ->).
  assert (Hrest : exists data',
    fee_type_and_alias values reached = (data', inr tt) /\
    ServiceVersion data' = ServiceVersion reached /\
    Charset data' = Charset reached /\
    SignMethod data' = SignMethod reached /\
    SignKeyIndex data' = SignKeyIndex reached).
  { unfold fee_type_and_alias. unfold int_present, int_param in Hfee_type.
    destruct (first_nonempty (values_get values "fee_type")) as [v|];
      [|discriminate].
    cbn in Hfee_type. destruct (ParseInt v) as [|n]; [discriminate|].
    eexists. split; [reflexivity|].
    destruct (values_get values "buyer_alias"); repeat split. }
  destruct Hrest as (data' & Hrest & Hsv' & Hcs' & Hsm' & Hidx').
  assert (Hrun :
    (if negb (TransportFee reached =? 0) || negb (ProductFee reached =? 0) then
       if negb (int_add (TransportFee reached) (ProductFee reached)
                =? TotalFee reached)
       then (reached, inl InconsistentFees)
       else fee_type_and_alias values reached
     else fee_type_and_alias values reached) = (data', inr tt)).
  { rewrite Ht, Hp, Htot. unfold fees_consistent in Hfees.
    apply orb_true_iff in Hfees as [Hzero|Hsum].
    - apply andb_true_iff in Hzero as [H1 H2]. rewrite H1, H2. exact Hrest.
    - rewrite Hsum. cbn [negb]. destruct (negb _ || negb _)%bool; exact Hrest. }
  rewrite Hrun. cbn [fst snd].
  unfold present in Hv, Hc, Hm, Hi. unfold int_after, int_param in Hidx.
  destruct (first_nonempty (values_get values "service_version")); [discriminate|].
  destruct (first_nonempty (values_get values "input_charset")); [discriminate|].
  destruct (first_nonempty (values_get values "sign_type")); [discriminate|].
  destruct (first_nonempty (values_get values "sign_key_index")); [discriminate|].
  rewrite Hsv', Hcs', Hsm', Hidx'. auto.
Qed.

End Properties.

Lemma hashSumHexBytes_perm (values : Values) (ranged1 ranged2 : list string)
    (key : string) :
  ranged1 ≡ₚ ranged2 ->
  hashSumHexBytes ranged1 values key = hashSumHexBytes ranged2 values key.
Proof.
  intros Hp. unfold hashSumHexBytes, string1.
  now rewrite (sort_Strings_perm ranged1 ranged2 Hp).
Qed.

(** C3: two parameter sets with the same keys and the same values under
    each key have the same digest, whatever the orders in which their keys
    are enumerated. *)
Theorem digest_order_independent (values1 values2 : Values)
    (ranged1 ranged2 : list string) (key : string) :
  (forall k, values1 !! k = values2 !! k) ->
  ranged1 ≡ₚ map_keys values1 ->
  ranged2 ≡ₚ map_keys values2 ->
  hashSumHexBytes ranged1 values1 key = hashSumHexBytes ranged2 values2 key.
Proof.
  intros Hsame Hp1 Hp2. apply map_eq in Hsame. subst values2.
  apply hashSumHexBytes_perm. now rewrite Hp1, Hp2.
Qed.

(** The whole call does not depend on the order of [range] either. *)
Lemma CheckAndInit_range_independent {Time} (ParseTime : string -> string + Time)
    (range1 range2 : Values -> list string)
    (data : NotifyURLData Time) (values : option Values) (key : string) :
  (forall m, range1 m ≡ₚ map_keys m) ->
  (forall m, range2 m ≡ₚ map_keys m) ->
  CheckAndInit ParseTime range1 data values key
  = CheckAndInit ParseTime range2 data values key.
Proof.
  intros H1 H2. destruct values as [values|]; [|reflexivity].
  unfold CheckAndInit.
  destruct (first_nonempty (values_get values "sign")); [|reflexivity].
  rewrite (hashSumHexBytes_perm (delete "sign" values)
             (range1 (delete "sign" values)) (range2 (delete "sign" values)));
    [reflexivity|].
  now rewrite H1, H2.
Qed.

(** ** The theorems at concrete inputs *)

Lemma range_forward_perm (values : Values) :
  range_forward values ≡ₚ map_keys values.
Proof. reflexivity. Qed.

Lemma range_backward_perm (values : Values) :
  range_backward values ≡ₚ map_keys values.
Proof. apply reverse_Permutation. Qed.

Ltac differ := let H := fresh in intros H; vm_compute in H; discriminate H.

(** The end-to-end example of the specification. *)
Example demo_example :
  out_err (demo (Some example_signed)) = None /\
  OutTradeNo (out_data (demo (Some example_signed))) = "T1" /\
  TotalFee (out_data (demo (Some example_signed))) = 100 /\
  TradeState (out_data (demo (Some example_signed))) = 0 /\
  out_err (demo (Some example_params)) = Some MissingSignature /\
  out_err (demo (Some (delete "out_trade_no" example_signed)))
    = Some SignatureMismatch.
Proof. vm_compute. repeat split. Qed.

Example demo_fees_100 : out_err (demo (Some example_fees_100)) = None.
Proof. vm_compute. reflexivity. Qed.

Lemma CheckAndInit_signature_mismatch_witness :
  out_err (demo (Some example_lower_case)) = Some SignatureMismatch /\
  out_data (demo (Some example_lower_case)) = fresh.
Proof.
  apply (CheckAndInit_signature_mismatch demo_ParseTime range_forward fresh
           example_lower_case "secret" "2c5fdae63617ce66bd7260b802a7abdd" []).
  - vm_compute. reflexivity.
  - discriminate.
  - differ.
Defined.

Lemma CheckAndInit_digest_witness :
  hashSumHexBytes (range_forward (delete "sign" example_signed))
    (delete "sign" example_signed) "secret"
  = digest_of (joined_string example_signed "secret") /\
  joined_string example_signed "secret" = spec_string example_signed "secret" /\
  out_err (demo (Some example_signed)) <> Some SignatureMismatch.
Proof.
  destruct (CheckAndInit_digest demo_ParseTime range_forward range_forward_perm
              fresh example_signed "secret" "2C5FDAE63617CE66BD7260B802A7ABDD")
    as (Hdigest & Hstring & Hiff).
  - vm_compute. reflexivity.
  - split; [exact Hdigest|]. split.
    + rewrite Hstring. vm_compute. reflexivity.
    + differ.
Defined.

Lemma CheckAndInit_digest_counterexample :
  hashSumHexBytes (range_forward (delete "sign" sign_only))
    (delete "sign" sign_only) "secret"
  = bytes_of_string "80353F06772F9B5C80204F40D0D34FDA" /\
  spec_string sign_only "secret" = "&key=secret" /\
  spec_digest sign_only "secret"
  = bytes_of_string "703E7A32F6B3257C1BA566815B929B7D" /\
  hashSumHexBytes (range_forward (delete "sign" sign_only))
    (delete "sign" sign_only) "secret"
  <> spec_digest sign_only "secret" /\
  out_err (demo (Some sign_only)) = Some (errors_New "notify_id is empty").
Proof.
  repeat split; try (vm_compute; reflexivity). differ.
Qed.

Lemma digest_order_independent_witness :
  hashSumHexBytes (range_forward example_params) example_params "secret"
  = hashSumHexBytes (range_backward example_params) example_params "secret".
Proof.
  apply (digest_order_independent example_params example_params).
  - reflexivity.
  - apply range_forward_perm.
  - apply range_backward_perm.
Defined.

Lemma CheckAndInit_protocol_defaults_witness :
  out_err (demo (Some example_signed)) = None /\
  ServiceVersion (out_data (demo (Some example_signed))) = "1.0" /\
  Charset (out_data (demo (Some example_signed))) = "GBK" /\
  SignMethod (out_data (demo (Some example_signed))) = "MD5" /\
  SignKeyIndex (out_data (demo (Some example_signed))) = 1.
Proof.
  apply (CheckAndInit_protocol_defaults demo_ParseTime range_forward fresh
           example_signed "secret"); vm_compute; reflexivity.
Defined.

Lemma CheckAndInit_fee_check_witness :
  out_err (demo (Some example_fees_90)) = Some InconsistentFees /\
  out_err (demo (Some example_fees_100)) <> Some InconsistentFees /\
  out_err (demo (Some example_signed)) <> Some InconsistentFees.
Proof.
  split; [|split].
  - refine (proj1 (CheckAndInit_fee_check demo_ParseTime range_forward fresh
                     example_fees_90 "secret" _ _) _ _);
      try (vm_compute; reflexivity); [left|]; differ.
  - refine (proj1 (proj2 (CheckAndInit_fee_check demo_ParseTime range_forward
                            fresh example_fees_100 "secret" _ _)) _);
      vm_compute; reflexivity.
  - refine (proj2 (proj2 (CheckAndInit_fee_check demo_ParseTime range_forward
                            fresh example_signed "secret" _ _)) _ _);
      vm_compute; reflexivity.
Defined.

Lemma CheckAndInit_fee_check_counterexample :
  correctly_signed range_forward fees_only "secret" = true /\
  int_param fees_only "transport_fee" = Some (inr 30) /\
  int_param fees_only "product_fee" = Some (inr 70) /\
  int_param fees_only "total_fee" = Some (inr 90) /\
  out_err (demo (Some fees_only)) = Some (errors_New "notify_id is empty") /\
  out_err (demo (Some fees_only)) <> Some InconsistentFees.
Proof.
  repeat split; try (vm_compute; reflexivity). differ.
Qed.

Lemma CheckAndInit_fee_type_required_witness :
  out_err (demo (Some example_no_fee_type)) = Some (errors_New "fee_type is empty") /\
  FeeType (out_data (demo (Some example_no_fee_type))) = FeeType fresh.
Proof.
  apply (CheckAndInit_fee_type_required demo_ParseTime range_forward fresh
           example_no_fee_type "secret"); vm_compute; reflexivity.
Defined.

Lemma CheckAndInit_fee_type_counterexample :
  correctly_signed range_forward example_no_fee_type "secret" = true /\
  valid_but_fee_type demo_ParseTime fresh example_no_fee_type = true /\
  example_no_fee_type !! "fee_type" = None /\
  out_err (demo (Some example_no_fee_type)) = Some (errors_New "fee_type is empty") /\
  out_err (demo (Some example_no_fee_type)) <> None /\
  FeeType (out_data (demo (Some example_no_fee_type))) = 0.
Proof.
  repeat split; try (vm_compute; reflexivity). differ.
Qed.

Lemma CheckAndInit_error_data_witness :
  out_data (demo (Some example_lower_case)) = fresh /\
  exists params (signature : string),
    Some example_no_notify_id = Some params /\
    first_nonempty (values_get params "sign") = Some signature /\
    correctly_signed range_forward params "secret" = true /\
    let data' := out_data (demo (Some example_no_notify_id)) in
    ServiceVersion data'
      = default "1.0" (first_nonempty (values_get params "service_version")) /\
    Charset data'
      = default "GBK" (first_nonempty (values_get params "input_charset")) /\
    Signature data' = signature /\
    SignMethod data'
      = default "MD5" (first_nonempty (values_get params "sign_type")).
Proof.
  split.
  - apply (CheckAndInit_error_data demo_ParseTime range_forward fresh
             (Some example_lower_case) "secret" SignatureMismatch).
    + vm_compute. reflexivity.
    + right. right. reflexivity.
  - apply (CheckAndInit_error_data demo_ParseTime range_forward fresh
             (Some example_no_notify_id) "secret"
             (errors_New "notify_id is empty")).
    + vm_compute. reflexivity.
    + discriminate.
    + discriminate.
    + discriminate.
Defined.

Lemma CheckAndInit_error_data_counterexample :
  out_err (demo (Some example_no_notify_id))
  = Some (errors_New "notify_id is empty") /\
  Signature (out_data (demo (Some example_no_notify_id)))
  = "CEDBB7ACB529DAD9875105B5C985404D" /\
  ServiceVersion (out_data (demo (Some example_no_notify_id))) = "1.0" /\
  Charset (out_data (demo (Some example_no_notify_id))) = "GBK" /\
  SignMethod (out_data (demo (Some example_no_notify_id))) = "MD5" /\
  SignKeyIndex (out_data (demo (Some example_no_notify_id))) = 1 /\
  out_data (demo (Some example_no_notify_id)) <> fresh.
Proof.
  repeat split; try (vm_compute; reflexivity). differ.
Qed.

Lemma CheckAndInit_values_frame_witness :
  match Some example_signed, out_values (demo (Some example_signed)) with
  | Some before, Some after =>
      (after = before \/ after = delete "sign" before) /\
      after !! "total_fee" = before !! "total_fee"
  | None, None => True
  | _, _ => False
  end.
Proof.
  apply (CheckAndInit_values_frame demo_ParseTime range_forward fresh
           (Some example_signed) "secret" "total_fee").
  discriminate.
Defined.

Lemma CheckAndInit_no_signature_witness :
  out_err (demo None) = Some InvalidInput /\
  out_err (demo (Some example_params)) = Some MissingSignature.
Proof.
  destruct (CheckAndInit_no_signature demo_ParseTime range_forward fresh "secret")
    as [Hnil Hsign].
  split; [exact Hnil|]. apply Hsign. left. vm_compute. reflexivity.
Defined.

Lemma CheckAndInit_no_signature_counterexample :
  out_err (demo (Some ∅)) = Some MissingSignature /\
  MissingSignature <> InvalidInput.
Proof. split; [vm_compute; reflexivity|discriminate]. Qed.

Lemma string1_sign_only_witness :
  string1 (range_forward (delete "sign" sign_only)) (delete "sign" sign_only)
    "secret"
  = bytes_of_string "key=secret" /\
  hashSumHexBytes (range_forward (delete "sign" sign_only))
    (delete "sign" sign_only) "secret"
  = digest_of "key=secret".
Proof.
  apply (string1_sign_only range_forward range_forward_perm sign_only "secret").
  intros k Hk. unfold values_get, sign_only, signed.
  rewrite lookup_insert_ne by congruence. reflexivity.
Defined.

(** * Further properties of CheckAndInit *)

Lemma ParseInt_error (v : string) (e : error) :
  ParseInt v = inl e -> exists kind, e = NumError "ParseInt" v kind.
Proof.
  unfold ParseInt. destruct v as [|c rest]; [intros [= <-]; eauto|].
  destruct (if Ascii.eqb c "+" then _ else _) as [neg body].
  destruct (ParseUint body) as [k|un]; [intros [= <-]; eauto|].
  repeat match goal with
  | |- context [if ?b then _ else _] => destruct b
  end; intros [= <-]; eauto.
Qed.

Lemma int_add_exact (x y : Z) :
  - 2 ^ 63 <= x + y < 2 ^ 63 -> int_add x y = x + y.
Proof.
  intros Hrange. unfold int_add, wrap64.
  rewrite Z.mod_small by lia. lia.
Qed.

Tactic Notation "run_by" uconstr(lem) :=
  erewrite run_bind; [|apply lem; eassumption].

Section Stops.

Context {Time : Type}.
Variable ParseTime : string -> string + Time.

Implicit Types (data : NotifyURLData Time) (values : Values).

Lemma bind_fail {A B} (c : init Time A) (k : A -> init Time B) data data' e :
  c data = (data', inl e) -> bind c k data = (data', inl e).
Proof. unfold bind. intros ->. reflexivity. Qed.

Lemma fail_required (set : string -> NotifyURLData Time -> NotifyURLData Time)
    (e : error) values k data :
  present values k = false ->
  match first_nonempty (values_get values k) with
  | Some v => assign (set v)
  | None => fail e
  end data = (data, inl e).
Proof.
  unfold present. destruct (first_nonempty _); [discriminate|reflexivity].
Qed.

Lemma fail_required_int (set : Z -> NotifyURLData Time -> NotifyURLData Time)
    (e : error) values k data :
  int_present values k = false ->
  match first_nonempty (values_get values k) with
  | Some v => parse_into set v
  | None => fail e
  end data = (data, inl (int_error values k e)).
Proof.
  unfold int_present, int_error, int_param, parse_into.
  destruct (first_nonempty _) as [v|]; [|reflexivity]. simpl.
  destruct (ParseInt v); [reflexivity|discriminate].
Qed.

Lemma fail_optional_int (set : Z -> NotifyURLData Time -> NotifyURLData Time)
    (c : init Time unit) values k data :
  int_optional values k = false ->
  match first_nonempty (values_get values k) with
  | Some v => parse_into set v
  | None => c
  end data = (data, inl (int_error values k (errors_New ""))).
Proof.
  unfold int_optional, int_error, int_param, parse_into.
  destruct (first_nonempty _) as [v|]; [|discriminate]. simpl.
  destruct (ParseInt v); [reflexivity|discriminate].
Qed.

Lemma fail_time values data :
  time_present ParseTime values = false ->
  match first_nonempty (values_get values "time_end") with
  | Some v =>
      match ParseTime v with
      | inl err => fail (ParseTimeError err)
      | inr t => assign (set_TimeEnd t)
      end
  | None => fail (errors_New "time_end is empty")
  end data = (data, inl (time_error ParseTime values)).
Proof.
  unfold time_present, time_error.
  destruct (first_nonempty _) as [v|]; [|reflexivity].
  destruct (ParseTime v); [reflexivity|discriminate].
Qed.

Lemma int_error_early values k (missing : error) :
  int_present values k = false ->
  early_error missing ->
  early_error (int_error values k missing).
Proof.
  unfold int_present, int_error, int_param. intros Habsent Hmissing.
  destruct (first_nonempty _) as [v|]; [|exact Hmissing]. simpl in *.
  destruct (ParseInt v) as [e|] eqn:Hparse; [|discriminate].
  apply ParseInt_error in Hparse as [kind ->]. reflexivity.
Qed.

Lemma int_error_optional_early values k (missing : error) :
  int_optional values k = false ->
  early_error (int_error values k missing).
Proof.
  unfold int_optional, int_error, int_param. intros Hbad.
  destruct (first_nonempty _) as [v|]; [|discriminate]. simpl in *.
  destruct (ParseInt v) as [e|] eqn:Hparse; [|discriminate].
  apply ParseInt_error in Hparse as [kind ->]. reflexivity.
Qed.

Lemma time_error_early values : early_error (time_error ParseTime values).
Proof.
  unfold time_error. destruct (first_nonempty _) as [v|]; [|cbn; repeat constructor].
  destruct (ParseTime v); [exact I|cbn; repeat constructor].
Qed.

Tactic Notation "stop_by" uconstr(lem) :=
  erewrite bind_fail; [|apply lem; eassumption];
  eexists _, _; split; [reflexivity|].
Ltac early :=
  first
    [ apply int_error_optional_early; assumption
    | apply int_error_early; [assumption|cbn; repeat constructor]
    | apply time_error_early
    | cbn; repeat constructor ].

(** When a statement before the fee check refuses its parameter, the body
    returns the error of that statement. *)
Lemma init_fields_stops values (signature : string) data :
  reaches_fee_check ParseTime values = false ->
  exists data' e,
    init_fields ParseTime values signature data = (data', inl e) /\
    early_error e.
Proof.
  intros Hstop. unfold reaches_fee_check in Hstop. unfold init_fields.
  erewrite run_bind; [|apply run_default].
  erewrite run_bind; [|apply run_default].
  erewrite run_bind; [|reflexivity].
  erewrite run_bind; [|apply run_default].
  destruct (int_optional values "sign_key_index") eqn:H1;
    [run_by run_index|stop_by fail_optional_int; early].
  destruct (present values "notify_id") eqn:H2;
    [run_by run_required|stop_by fail_required; early].
  destruct (int_present values "trade_mode") eqn:H3;
    [run_by run_required_int|stop_by fail_required_int; early].
  destruct (int_present values "trade_state") eqn:H4;
    [run_by run_required_int|stop_by fail_required_int; early].
  erewrite run_bind; [|apply run_head].
  erewrite run_bind; [|apply run_head].
  destruct (present values "transaction_id") eqn:H5;
    [run_by run_required|stop_by fail_required; early].
  destruct (time_present ParseTime values) eqn:H6;
    [|stop_by fail_time; early].
  destruct (run_time ParseTime values H6) as [t Ht].
  erewrite run_bind; [|apply Ht].
  destruct (present values "bank_type") eqn:H7;
    [run_by run_required|stop_by fail_required; early].
  destruct (present values "partner") eqn:H8;
    [run_by run_required|stop_by fail_required; early].
  destruct (present values "out_trade_no") eqn:H9;
    [run_by run_required|stop_by fail_required; early].
  erewrite run_bind; [|apply run_head].
  destruct (int_present values "total_fee") eqn:H10;
    [run_by run_required_int|stop_by fail_required_int; early].
  destruct (int_optional values "discount") eqn:H11;
    [run_by run_optional_int|stop_by fail_optional_int; early].
  destruct (int_optional values "transport_fee") eqn:H12;
    [run_by run_optional_int|stop_by fail_optional_int; early].
  destruct (int_optional values "product_fee") eqn:H13;
    [discriminate|stop_by fail_optional_int; early].
Qed.

(** Once the fee check is reached, the outcome of the body is that of the
    check followed by lines 253-267. *)
Lemma init_fields_decided values (signature : string) data :
  reaches_fee_check ParseTime values = true ->
  exists reached,
    FeeType reached = FeeType data /\
    init_fields ParseTime values signature data =
      if fees_consistent data values
      then fee_type_and_alias values reached
      else (reached, inl InconsistentFees).
Proof.
  intros Hreach.
  destruct (init_fields_reaches ParseTime values signature data Hreach)
    as (reached & _ & (Ht & Hp & Htot & Hft) & ->).
  exists reached. split; [exact Hft|].
  rewrite Ht, Hp, Htot. unfold fees_consistent.
  destruct (transport_fee_of data values =? 0),
           (product_fee_of data values =? 0),
           (int_add _ _ =? total_fee_of data values); reflexivity.
Qed.

Lemma fee_type_and_alias_ok values data :
  int_present values "fee_type" = true <->
  exists data', fee_type_and_alias values data = (data', inr tt).
Proof.
  unfold int_present, int_param, fee_type_and_alias.
  destruct (first_nonempty (values_get values "fee_type")) as [v|]; simpl.
  - destruct (ParseInt v); split; eauto; try discriminate.
    intros [? [=]].
  - split; [discriminate|]. intros [? [=]].
Qed.

End Stops.

Section Outcomes.

Context {Time : Type}.
Variable ParseTime : string -> string + Time.
Variable rangeKeys : Values -> list string.

Implicit Types (data : NotifyURLData Time) (values : Values).

Abbreviation CheckAndInit := (CheckAndInit ParseTime rangeKeys).

Lemma not_early_error_InconsistentFees : ~ early_error InconsistentFees.
Proof.
  cbn. rewrite !elem_of_cons, elem_of_nil. intuition discriminate.
Qed.

Lemma CheckAndInit_no_sign data values key :
  first_nonempty (values_get values "sign") = None ->
  CheckAndInit data (Some values) key
  = mkOutcome data (Some values) (Some MissingSignature).
Proof. intros Hsig. unfold CheckAndInit. rewrite Hsig. reflexivity. Qed.

(** Without a correct signature the call returns one of the two signature
    errors. *)
Lemma CheckAndInit_unsigned data values key :
  correctly_signed rangeKeys values key = false ->
  out_err (CheckAndInit data (Some values) key) = Some MissingSignature \/
  out_err (CheckAndInit data (Some values) key) = Some SignatureMismatch.
Proof.
  unfold correctly_signed.
  destruct (first_nonempty (values_get values "sign")) as [signature|] eqn:Hsig.
  - intros Hbad. apply bool_decide_eq_false in Hbad. right.
    rewrite (CheckAndInit_signed _ _ _ _ _ _ Hsig).
    now rewrite ConstantTimeCompare_neq.
  - intros _. left. now rewrite CheckAndInit_no_sign.
Qed.

(** A correctly signed set stopped before the fee check. *)
Lemma CheckAndInit_stopped data values key :
  correctly_signed rangeKeys values key = true ->
  reaches_fee_check ParseTime values = false ->
  exists e, out_err (CheckAndInit data (Some values) key) = Some e /\
            early_error e.
Proof.
  intros Hsigned Hstop.
  rewrite (CheckAndInit_verified _ _ _ _ _ Hsigned). cbv zeta. cbn [out_err].
  destruct (init_fields_stops ParseTime values (received_signature values)
              data Hstop) as (d & e & -> & He).
  exists e. split; [reflexivity|exact He].
Qed.

(** A correctly signed set that reaches the fee check. *)
Lemma CheckAndInit_decided data values key :
  correctly_signed rangeKeys values key = true ->
  reaches_fee_check ParseTime values = true ->
  exists reached,
    FeeType reached = FeeType data /\
    CheckAndInit data (Some values) key =
      let r := if fees_consistent data values
               then fee_type_and_alias values reached
               else (reached, inl InconsistentFees) in
      mkOutcome r.1 (Some (delete "sign" values))
        (match r.2 with inl err => Some err | inr _ => None end).
Proof.
  intros Hsigned Hreach.
  rewrite (CheckAndInit_verified _ _ _ _ _ Hsigned).
  destruct (init_fields_decided ParseTime values (received_signature values)
              data Hreach) as (reached & Hft & ->).
  exists reached. split; [exact Hft|reflexivity].
Qed.

Lemma signature_errors_differ :
  MissingSignature <> InconsistentFees /\ SignatureMismatch <> InconsistentFees.
Proof. split; discriminate. Qed.

(** Which calls return the inconsistent-fees error, for a correctly signed
    set that reaches the fee check. *)
Lemma CheckAndInit_fees_decided data values key :
  correctly_signed rangeKeys values key = true ->
  reaches_fee_check ParseTime values = true ->
  out_err (CheckAndInit data (Some values) key) = Some InconsistentFees <->
  fees_consistent data values = false.
Proof.
  intros Hsigned Hreach.
  destruct (CheckAndInit_decided data values key Hsigned Hreach)
    as (reached & _ & ->).
  cbv zeta. cbn [out_err]. destruct (fees_consistent data values).
  - split; [|discriminate].
    destruct (fee_type_and_alias values reached) as [d [e|[]]] eqn:Hrest;
      cbn; [|discriminate].
    intros [= ->]. now apply fee_type_and_alias_error in Hrest.
  - split; reflexivity.
Qed.

(** X1: the call succeeds exactly on the parameter sets that are correctly
    signed and otherwise valid: every required parameter present, every
    integer parameter well-formed, the time accepted by [ParseTime] and the
    fee breakdown consistent. *)
Theorem CheckAndInit_success_iff data values key :
  out_err (CheckAndInit data (Some values) key) = None <->
  correctly_signed rangeKeys values key = true /\
  otherwise_valid ParseTime data values = true.
Proof.
  split.
  - intros Hok.
    destruct (correctly_signed rangeKeys values key) eqn:Hsigned.
    2:{ destruct (CheckAndInit_unsigned data values key Hsigned) as [H|H];
          rewrite H in Hok; discriminate. }
    split; [reflexivity|].
    destruct (reaches_fee_check ParseTime values) eqn:Hreach.
    2:{ destruct (CheckAndInit_stopped data values key Hsigned Hreach)
          as (e & He & _).
        rewrite He in Hok. discriminate. }
    destruct (CheckAndInit_decided data values key Hsigned Hreach)
      as (reached & _ & Hrun).
    rewrite Hrun in Hok. cbv zeta in Hok. cbn [out_err] in Hok.
    unfold otherwise_valid, valid_but_fee_type. rewrite Hreach.
    destruct (fees_consistent data values); [|discriminate].
    cbn [andb]. apply (fee_type_and_alias_ok values reached).
    destruct (fee_type_and_alias values reached) as [d [e|[]]]; [discriminate|].
    eauto.
  - intros [Hsigned Hvalid].
    apply andb_true_iff in Hvalid as [Hvalid Hfee_type].
    apply andb_true_iff in Hvalid as [Hreach Hfees].
    destruct (CheckAndInit_decided data values key Hsigned Hreach)
      as (reached & _ & ->).
    rewrite Hfees. cbv zeta.
    destruct (proj1 (fee_type_and_alias_ok values reached) Hfee_type) as [d Hd].
    rewrite Hd. reflexivity.
Qed.

(** X2: the call returns the inconsistent-fees error exactly on the
    correctly signed sets that reach the fee check with a transport or
    product fee that is not zero and a sum (Go's [int] addition) that is not
    the total fee. *)
Theorem CheckAndInit_inconsistent_fees_iff data values key :
  out_err (CheckAndInit data (Some values) key) = Some InconsistentFees <->
  correctly_signed rangeKeys values key = true /\
  reaches_fee_check ParseTime values = true /\
  fees_consistent data values = false.
Proof.
  split.
  - intros Herr.
    destruct (correctly_signed rangeKeys values key) eqn:Hsigned.
    2:{ destruct (CheckAndInit_unsigned data values key Hsigned) as [H|H];
          rewrite H in Herr; discriminate. }
    destruct (reaches_fee_check ParseTime values) eqn:Hreach.
    2:{ destruct (CheckAndInit_stopped data values key Hsigned Hreach)
          as (e & He & Hearly).
        rewrite He in Herr. injection Herr as ->.
        destruct (not_early_error_InconsistentFees Hearly). }
    repeat split.
    now apply (CheckAndInit_fees_decided data values key Hsigned Hreach).
  - intros (Hsigned & Hreach & Hfees).
    now apply (CheckAndInit_fees_decided data values key Hsigned Hreach).
Qed.

(** X3: when the sum of the transport and product fees does not overflow
    [int], the fee check is the arithmetic one: a correctly signed set that
    reaches it fails with the inconsistent-fees error exactly when one of the
    two fees is not zero and their sum differs from the total fee. *)
Theorem CheckAndInit_fee_check_exact data values key :
  correctly_signed rangeKeys values key = true ->
  reaches_fee_check ParseTime values = true ->
  - 2 ^ 63 <= transport_fee_of data values + product_fee_of data values < 2 ^ 63 ->
  out_err (CheckAndInit data (Some values) key) = Some InconsistentFees <->
  (transport_fee_of data values <> 0 \/ product_fee_of data values <> 0) /\
  transport_fee_of data values + product_fee_of data values
    <> total_fee_of data values.
Proof.
  intros Hsigned Hreach Hrange.
  rewrite (CheckAndInit_fees_decided data values key Hsigned Hreach).
  unfold fees_consistent. rewrite (int_add_exact _ _ Hrange).
  rewrite orb_false_iff, andb_false_iff, !Z.eqb_neq. tauto.
Qed.

(** X4: the call deletes [sign] from the caller's map exactly when its first
    value is not empty, whether or not the signature is then accepted; a map
    without a usable [sign] is left as it is. *)
Theorem CheckAndInit_sign_deleted data values key :
  out_values (CheckAndInit data (Some values) key)
  = Some (if present values "sign" then delete "sign" values else values).
Proof.
  unfold present.
  destruct (first_nonempty (values_get values "sign")) as [signature|] eqn:Hsig.
  - rewrite (CheckAndInit_signed _ _ _ _ _ _ Hsig). now destruct (negb _).
  - now rewrite CheckAndInit_no_sign.
Qed.

(** X5: a map that went through the call with a usable [sign] cannot be
    verified again: the call removed [sign], so a second call on the same
    map fails with "sign is empty", whatever the first call returned. *)
Theorem CheckAndInit_twice data data' values key :
  present values "sign" = true ->
  out_err (CheckAndInit data' (out_values (CheckAndInit data (Some values) key)) key)
  = Some MissingSignature.
Proof.
  intros Hsign.
  assert (Hout : out_values (CheckAndInit data (Some values) key)
                 = Some (delete "sign" values)).
  { unfold present in Hsign.
    destruct (first_nonempty (values_get values "sign")) as [signature|] eqn:Hsig;
      [|discriminate].
    rewrite (CheckAndInit_signed _ _ _ _ _ _ Hsig). now destruct (negb _). }
  rewrite Hout, CheckAndInit_no_sign; [reflexivity|].
  unfold values_get. now rewrite lookup_delete_eq.
Qed.

End Outcomes.

Section Origin.

Context {Time : Type}.
Variable ParseTime : string -> string + Time.

Implicit Types (data : NotifyURLData Time) (values : Values).

Lemma errs_parse (P : error -> Prop) set (v : string) :
  (forall e, ParseInt v = inl e -> P e) ->
  errs P (parse_into (Time := Time) set v).
Proof.
  intros HP data data' e. unfold parse_into.
  destruct (ParseInt v) as [e'|n] eqn:Hparse; [|discriminate].
  intros [= _ <-]. now apply HP.
Qed.

Ltac origin_parse :=
  let e := fresh "e" in
  let He := fresh "He" in
  let kind := fresh "kind" in
  intros e He; destruct (ParseInt_error _ _ He) as [kind ->];
  cbn [error_origin]; split; [reflexivity|];
  match goal with
  | E : first_nonempty (values_get _ ?k) = Some _ |- _ =>
      exists k; split; [repeat constructor|]; split; [exact E|exact He]
  end.

Ltac origin_fail :=
  cbn [error_origin];
  first
    [ left; reflexivity
    | match goal with
      | E : first_nonempty (values_get _ ?k) = None |- _ =>
          right; exists k; split; [repeat constructor|];
          split; [reflexivity|]; unfold present; rewrite E; reflexivity
      end
    | match goal with
      | E : first_nonempty _ = Some ?v, E' : ParseTime ?v = inl _ |- _ =>
          exists v; split; assumption
      end ].

Ltac origin_tac :=
  repeat first
    [ apply errs_bind; [|intros ?]
    | match goal with
      | |- errs _ (match ?x with _ => _ end) =>
          let E := fresh "E" in destruct x eqn:E
      end
    | apply errs_assign
    | apply errs_ret
    | apply errs_read
    | apply errs_parse; origin_parse
    | apply errs_fail; origin_fail ].

(** Every error of the body names its cause. *)
Lemma init_fields_error_origin values (signature : string) :
  errs (error_origin ParseTime values) (init_fields ParseTime values signature).
Proof. unfold init_fields. origin_tac. Qed.

(** *** The body does not look at the signature it stores *)

Lemma blind_bind {A B} (c : init Time A) (k : A -> init Time B) :
  signature_blind c -> (forall a, signature_blind (k a)) ->
  signature_blind (bind c k).
Proof.
  unfold signature_blind, bind. intros Hc Hk s data. rewrite Hc.
  destruct (c data) as [d [e|a]]; cbn [fst snd]; [reflexivity|]. apply Hk.
Qed.

Lemma blind_bind_read {B} (k : NotifyURLData Time -> init Time B) :
  (forall s d x, k (set_Signature s d) x = k d x) ->
  (forall d, signature_blind (k d)) ->
  signature_blind (bind read k).
Proof.
  unfold signature_blind, bind, read. intros Hsame Hk s data.
  rewrite Hsame. apply Hk.
Qed.

Lemma blind_assign (f : NotifyURLData Time -> NotifyURLData Time) :
  (forall s d, f (set_Signature s d) = set_Signature s (f d)) ->
  signature_blind (assign f).
Proof. intros Hf s data. unfold assign. cbn. now rewrite Hf. Qed.

Lemma blind_ret {A} (a : A) : signature_blind (ret (Time := Time) a).
Proof. intros s data. reflexivity. Qed.

Lemma blind_fail {A} (e : error) :
  signature_blind (fail (Time := Time) (A := A) e).
Proof. intros s data. reflexivity. Qed.

Lemma blind_parse_into (set : Z -> NotifyURLData Time -> NotifyURLData Time)
    (v : string) :
  (forall n s d, set n (set_Signature s d) = set_Signature s (set n d)) ->
  signature_blind (parse_into set v).
Proof.
  intros Hset. unfold parse_into. destruct (ParseInt v).
  - apply blind_fail.
  - apply blind_assign. intros s d. apply Hset.
Qed.

Ltac blind_tac :=
  repeat first
    [ match goal with
      | |- signature_blind (bind read _) =>
          apply blind_bind_read; [reflexivity|intros ?]
      | |- signature_blind (bind _ _) => apply blind_bind; [|intros ?]
      | |- signature_blind (match ?x with _ => _ end) => destruct x
      end
    | apply blind_ret
    | apply blind_fail
    | apply blind_assign; reflexivity
    | apply blind_parse_into; reflexivity ].

(** The signature handed to the body ends in the [Signature] field and
    changes nothing else. *)
Lemma init_fields_signature values (s s' : string) data :
  init_fields ParseTime values s data
  = (set_Signature s (init_fields ParseTime values s' data).1,
     (init_fields ParseTime values s' data).2).
Proof.
  unfold init_fields.
  match goal with
  | |- context [bind (assign (set_Signature s)) ?k] => set (tail := k)
  end.
  assert (Hblind : signature_blind (tail tt)).
  { subst tail. cbv beta. blind_tac. }
  destruct (first_nonempty (values_get values "service_version")),
           (first_nonempty (values_get values "input_charset"));
    cbv beta iota delta [bind assign];
    match goal with
    | |- tail tt (set_Signature s ?d) = _ =>
        change (set_Signature s d) with (set_Signature s (set_Signature s' d))
    end;
    apply Hblind.
Qed.

End Origin.

Section FirstValues.

Context {Time : Type}.
Variable ParseTime : string -> string + Time.

Implicit Types (data : NotifyURLData Time) (values : Values).

Lemma bind_ext {A B} (c c' : init Time A) (k k' : A -> init Time B) data :
  c data = c' data -> (forall a d, k a d = k' a d) ->
  bind c k data = bind c' k' data.
Proof.
  unfold bind. intros -> Hk. destruct (c' data) as [d [e|a]]; auto.
Qed.

Lemma first_nonempty_head (vs1 vs2 : list string) :
  head vs1 = head vs2 -> first_nonempty vs1 = first_nonempty vs2.
Proof. destruct vs1, vs2; intros Hhead; simplify_eq/=; reflexivity. Qed.

Ltac same_step Hsame :=
  first
    [ reflexivity
    | match goal with
      | |- match first_nonempty (values_get ?m1 ?k) with _ => _ end _ = _ =>
          rewrite (first_nonempty_head (values_get m1 k) _
                     (Hsame k ltac:(repeat constructor)));
          reflexivity
      | |- match values_get ?m1 ?k with _ => _ end _
           = match values_get ?m2 _ with _ => _ end _ =>
          let Hh := fresh "Hh" in
          pose proof (Hsame k ltac:(repeat constructor)) as Hh;
          destruct (values_get m1 k), (values_get m2 k); simplify_eq/=;
          reflexivity
      end ].

(** The body reads nothing but the first value of each parameter it knows. *)
Lemma init_fields_first_values values1 values2 (signature : string) data :
  same_first_values values1 values2 ->
  init_fields ParseTime values1 signature data
  = init_fields ParseTime values2 signature data.
Proof.
  intros Hsame. unfold init_fields.
  repeat (apply bind_ext; [same_step Hsame|intros ? ?]).
  same_step Hsame.
Qed.

End FirstValues.

Lemma length_bytes_of_string (s : string) :
  length (bytes_of_string s) = String.length s.
Proof. induction s as [|c s IH]; simpl; congruence. Qed.

Lemma MD5_Sum_length (data : list Z) : length (MD5.Sum data) = 16%nat.
Proof.
  unfold MD5.Sum. cbv zeta.
  destruct (fold_left MD5.block _ MD5.init) as [a b c d]. reflexivity.
Qed.

Lemma hex_upper_length (bs : list Z) :
  length (hex_upper bs) = (2 * length bs)%nat.
Proof. induction bs as [|b bs IH]; simpl; lia. Qed.

Lemma hex_upper_digits (bs : list Z) :
  Forall (fun b => 0 <= b < 256) bs -> Forall upper_hex_digit (hex_upper bs).
Proof.
  assert (Hnibble : forall n, 0 <= n < 16 -> upper_hex_digit (upper_hextable n)).
  { intros n Hn. unfold upper_hex_digit, upper_hextable.
    destruct (Z.ltb_spec n 10); lia. }
  induction 1 as [|b bs Hb _ IH]; [constructor|].
  cbn [hex_upper]. apply Forall_cons. split; [|apply Forall_cons; split].
  - apply Hnibble. rewrite Z.shiftr_div_pow2 by lia. change (2 ^ 4) with 16.
    split.
    + apply Z.div_pos; lia.
    + apply Z.div_lt_upper_bound; lia.
  - apply Hnibble. change 15 with (Z.ones 4). rewrite Z.land_ones by lia.
    apply Z.mod_pos_bound. reflexivity.
  - exact IH.
Qed.

(** The digest of lines 99-102 is made of 32 upper-case hexadecimal
    digits. *)
Lemma hashSumHexBytes_shape (ranged : list string) (values : Values)
    (key : string) :
  length (hashSumHexBytes ranged values key) = 32%nat /\
  Forall upper_hex_digit (hashSumHexBytes ranged values key).
Proof.
  rewrite hashSumHexBytes_digest. split.
  - now rewrite hex_upper_length, MD5_Sum_length.
  - apply hex_upper_digits, MD5_Sum_range.
Qed.

Section Errors.

Context {Time : Type}.
Variable ParseTime : string -> string + Time.
Variable rangeKeys : Values -> list string.

Implicit Types (data : NotifyURLData Time) (values : Values).

Abbreviation CheckAndInit := (CheckAndInit ParseTime rangeKeys).

(** Every error of a call on a map that is not nil: no usable [sign], a
    signature that does not match, or an error of the body with its cause. *)
Lemma CheckAndInit_error_cases data values key (e : error) :
  out_err (CheckAndInit data (Some values) key) = Some e ->
  (e = MissingSignature /\ present values "sign" = false) \/
  (e = SignatureMismatch /\ present values "sign" = true /\
   correctly_signed rangeKeys values key = false) \/
  (correctly_signed rangeKeys values key = true /\
   error_origin ParseTime values e).
Proof.
  unfold present, correctly_signed.
  destruct (first_nonempty (values_get values "sign")) as [signature|] eqn:Hsig.
  - rewrite (CheckAndInit_signed _ _ _ _ _ _ Hsig).
    destruct (decide (bytes_of_string signature
                      = hashSumHexBytes (rangeKeys (delete "sign" values))
                          (delete "sign" values) key)) as [Heq|Hne].
    + apply ConstantTimeCompare_eq in Heq as Hone. rewrite Hone.
      cbn [negb Z.eqb]. cbv zeta. cbn [out_err].
      destruct (init_fields _ _ _ _) as [d [e'|[]]] eqn:Hrun; cbn [snd];
        [|discriminate].
      intros [= ->]. right. right. split; [now apply bool_decide_eq_true|].
      exact (init_fields_error_origin ParseTime _ _ _ _ _ Hrun).
    + rewrite ConstantTimeCompare_neq by exact Hne. cbn.
      intros [= <-]. right. left. repeat split.
      now apply bool_decide_eq_false.
  - rewrite CheckAndInit_no_sign by exact Hsig. cbn. intros [= <-]. auto.
Qed.

(** X6: an error built by [errors.New] names its cause: "sign is empty"
    when [sign] is missing or empty, the mismatch message when the
    signature is not the digest, the fee message, or "<k> is empty" for a
    required parameter [k] that is indeed missing or empty. *)
Theorem CheckAndInit_text_error data values key (msg : string) :
  out_err (CheckAndInit data (Some values) key) = Some (errors_New msg) ->
  (msg = "sign is empty" /\ present values "sign" = false) \/
  (errors_New msg = SignatureMismatch /\
   correctly_signed rangeKeys values key = false) \/
  msg = "transport_fee+product_fee != total_fee" \/
  (exists k, k ∈ required_keys /\ msg = k ++ " is empty" /\
             present values k = false).
Proof.
  intros Herr.
  destruct (CheckAndInit_error_cases data values key _ Herr)
    as [[[= ->] Hsign]|[[He [_ Hbad]]|[_ Horigin]]];
    [auto|auto|cbn in Horigin; tauto].
Qed.

(** X7: a [*strconv.NumError] returned by the call is the error [ParseInt]
    gave for the first value of one of the eight integer parameters, of a
    correctly signed set; it carries that value. *)
Theorem CheckAndInit_number_error data values key
    (Func Num : string) (Err : NumErrKind) :
  out_err (CheckAndInit data (Some values) key) = Some (NumError Func Num Err) ->
  correctly_signed rangeKeys values key = true /\
  Func = "ParseInt" /\
  exists k, k ∈ int_keys /\
            first_nonempty (values_get values k) = Some Num /\
            ParseInt Num = inl (NumError Func Num Err).
Proof.
  intros Herr.
  destruct (CheckAndInit_error_cases data values key _ Herr)
    as [[[=] _]|[[[=] _]|[Hsigned Horigin]]].
  split; [exact Hsigned|exact Horigin].
Qed.

(** X8: an error of [ParseTime] is returned as it is, and only for the
    first value of [time_end] of a correctly signed set. *)
Theorem CheckAndInit_time_error data values key (msg : string) :
  out_err (CheckAndInit data (Some values) key) = Some (ParseTimeError msg) ->
  correctly_signed rangeKeys values key = true /\
  exists v, first_nonempty (values_get values "time_end") = Some v /\
            ParseTime v = inl msg.
Proof.
  intros Herr.
  destruct (CheckAndInit_error_cases data values key _ Herr)
    as [[[=] _]|[[[=] _]|[Hsigned Horigin]]].
  split; [exact Hsigned|exact Horigin].
Qed.

(** X9: the decoded record and the error depend only on the first value of
    each parameter the decoder knows: two correctly signed sets with the
    same first values, whatever else they hold (unknown parameters, further
    values, another signature or key), give the same error and the same
    record up to the [Signature] field. *)
Theorem CheckAndInit_first_values data values1 values2 (key1 key2 : string) :
  same_first_values values1 values2 ->
  correctly_signed rangeKeys values1 key1 = true ->
  correctly_signed rangeKeys values2 key2 = true ->
  out_err (CheckAndInit data (Some values1) key1)
  = out_err (CheckAndInit data (Some values2) key2) /\
  set_Signature "" (out_data (CheckAndInit data (Some values1) key1))
  = set_Signature "" (out_data (CheckAndInit data (Some values2) key2)).
Proof.
  intros Hsame Hs1 Hs2.
  rewrite (CheckAndInit_verified _ _ _ _ _ Hs1),
          (CheckAndInit_verified _ _ _ _ _ Hs2).
  cbv zeta. cbn [out_err out_data].
  rewrite (init_fields_signature ParseTime values1 _ ""),
          (init_fields_signature ParseTime values2 _ "").
  rewrite (init_fields_first_values ParseTime values1 values2 "" data Hsame).
  cbn [fst snd]. split; reflexivity.
Qed.

(** X10: a signature that is not made of exactly 32 upper-case hexadecimal
    digits is refused with the signature-mismatch error, and nothing is
    written to the record. *)
Theorem CheckAndInit_signature_shape data values key (signature : string) :
  first_nonempty (values_get values "sign") = Some signature ->
  ~ (String.length signature = 32%nat /\
     Forall upper_hex_digit (bytes_of_string signature)) ->
  out_err (CheckAndInit data (Some values) key) = Some SignatureMismatch /\
  out_data (CheckAndInit data (Some values) key) = data.
Proof.
  intros Hsig Hshape.
  rewrite (CheckAndInit_signed _ _ _ _ _ _ Hsig).
  rewrite ConstantTimeCompare_neq; [split; reflexivity|].
  intros Heq. apply Hshape.
  destruct (hashSumHexBytes_shape (rangeKeys (delete "sign" values))
              (delete "sign" values) key) as [Hlen Hdigits].
  rewrite <- Heq in Hlen, Hdigits.
  rewrite length_bytes_of_string in Hlen. auto.
Qed.

End Errors.

(** X11: the whole call, not only the digest, is independent of the order in
    which [range] visits the keys of the map. *)
Theorem CheckAndInit_any_range_order {Time} (ParseTime : string -> string + Time)
    (range1 range2 : Values -> list string)
    (data : NotifyURLData Time) (values : option Values) (key : string) :
  (forall m, range1 m ≡ₚ map_keys m) ->
  (forall m, range2 m ≡ₚ map_keys m) ->
  CheckAndInit ParseTime range1 data values key
  = CheckAndInit ParseTime range2 data values key.
Proof. apply CheckAndInit_range_independent. Qed.

(** ** The record of a successful call *)

Section Record.

Context {Time : Type}.
Variable ParseTime : string -> string + Time.
Variable rangeKeys : Values -> list string.

Implicit Types (data : NotifyURLData Time) (values : Values).

Abbreviation CheckAndInit := (CheckAndInit ParseTime rangeKeys).

Lemma run_time_value values :
  time_present ParseTime values = true ->
  exists t,
    ParseTime (first_value values "time_end") = inr t /\
    forall data,
      match first_nonempty (values_get values "time_end") with
      | Some v =>
          match ParseTime v with
          | inl err => fail (ParseTimeError err)
          | inr t => assign (set_TimeEnd t)
          end
      | None => fail (errors_New "time_end is empty")
      end data = (set_TimeEnd t data, inr tt).
Proof.
  unfold time_present, first_value.
  destruct (first_nonempty _) as [v|]; [|discriminate].
  destruct (ParseTime v) as [|t] eqn:Hparse; [discriminate|]. exists t.
  split; [exact Hparse|reflexivity].
Qed.

Lemma int_after_present values k (old old' : Z) :
  int_present values k = true -> int_after values k old = int_after values k old'.
Proof.
  unfold int_present, int_after.
  destruct (int_param values k) as [[|]|]; try discriminate. reflexivity.
Qed.

(** The record the body holds when it reaches the fee check. *)
Lemma init_fields_reaches_record values (signature : string) data :
  reaches_fee_check ParseTime values = true ->
  exists t,
    ParseTime (first_value values "time_end") = inr t /\
    init_fields ParseTime values signature data =
      let reached :=
        set_BuyerAlias (BuyerAlias data)
          (set_FeeType (FeeType data)
             (set_Signature signature (decoded values t data))) in
      if fees_consistent data values
      then fee_type_and_alias values reached
      else (reached, inl InconsistentFees).
Proof.
  intros Hreach.
  pose proof Hreach as Hsplit. unfold reaches_fee_check in Hsplit.
  repeat match goal with
  | H : (_ && _)%bool = true |- _ => apply andb_true_iff in H as [? ?]
  end.
  destruct (run_time_value values) as (t & Htime & Ht); [assumption|].
  exists t. split; [exact Htime|].
  unfold init_fields.
  erewrite run_bind; [|apply run_default].
  erewrite run_bind; [|apply run_default].
  erewrite run_bind; [|reflexivity].
  erewrite run_bind; [|apply run_default].
  run_by run_index.
  run_by run_required.
  run_by run_required_int.
  run_by run_required_int.
  erewrite run_bind; [|apply run_head].
  erewrite run_bind; [|apply run_head].
  run_by run_required.
  erewrite run_bind; [|apply Ht].
  run_by run_required.
  run_by run_required.
  run_by run_required.
  erewrite run_bind; [|apply run_head].
  run_by run_required_int.
  run_by run_optional_int.
  run_by run_optional_int.
  run_by run_optional_int.
  erewrite run_bind; [|reflexivity].
  match goal with
  | |- bind _ _ ?d = _ =>
      assert (Hrec : d = set_BuyerAlias (BuyerAlias data)
                           (set_FeeType (FeeType data)
                              (set_Signature signature (decoded values t data))))
  end.
  { unfold decoded, head_or, first_value, int_after, int_present in *.
    destruct (int_param values "total_fee") as [[|]|]; try discriminate.
    destruct (values_get values "pay_info"), (values_get values "bank_billno"),
             (values_get values "attach");
      destruct (int_param values "discount") as [[|]|],
               (int_param values "transport_fee") as [[|]|],
               (int_param values "product_fee") as [[|]|];
      reflexivity. }
  rewrite Hrec. clear Hrec. cbv zeta.
  set (reached := set_BuyerAlias _ _).
  assert (Htransport : TransportFee reached = transport_fee_of data values)
    by reflexivity.
  assert (Hproduct : ProductFee reached = product_fee_of data values)
    by reflexivity.
  assert (Htotal : TotalFee reached = total_fee_of data values)
    by (apply int_after_present; assumption).
  clearbody reached.
  unfold bind, read, fees_consistent, fee_type_and_alias, parse_into.
  rewrite Htransport, Hproduct, Htotal.
  destruct (transport_fee_of data values =? 0),
           (product_fee_of data values =? 0),
           (int_add _ _ =? total_fee_of data values);
    cbn [negb orb andb ret fail];
    try reflexivity;
    (destruct (first_nonempty (values_get values "fee_type")) as [v|];
     [destruct (ParseInt v); [reflexivity|]|reflexivity]);
    destruct (values_get values "buyer_alias"); reflexivity.
Qed.

(** X13: on success every field of the record holds the first value of its
    parameter, parsed by [ParseInt] where it is an integer and by
    [ParseTime] for the time, the signature as received; an optional
    parameter that is absent leaves the field as the receiver had it. *)
Theorem CheckAndInit_success_record data values key :
  correctly_signed rangeKeys values key = true ->
  otherwise_valid ParseTime data values = true ->
  exists t,
    ParseTime (first_value values "time_end") = inr t /\
    out_data (CheckAndInit data (Some values) key) = decoded values t data.
Proof.
  intros Hsigned Hvalid.
  apply andb_true_iff in Hvalid as [Hvalid Hfee_type].
  apply andb_true_iff in Hvalid as [Hreach Hfees].
  rewrite (CheckAndInit_verified _ _ _ _ _ Hsigned). cbv zeta. cbn [out_data].
  destruct (init_fields_reaches_record values (received_signature values)
              data Hreach) as (t & Htime & ->).
  exists t. split; [exact Htime|].
  cbv zeta. rewrite Hfees.
  unfold fee_type_and_alias, decoded, head_or, int_after, int_present in *.
  unfold int_param in *.
  destruct (first_nonempty (values_get values "fee_type")) as [v|];
    [|discriminate].
  cbn [fmap option_fmap option_map] in *.
  destruct (ParseInt v); [discriminate|].
  destruct (values_get values "buyer_alias"); reflexivity.
Qed.

End Record.

(** ** A repeated key and a value that spells it out are signed alike *)

Lemma concat_cons_more (sep x y : string) (l : list string) :
  String.concat sep (x :: y :: l) = x ++ sep ++ String.concat sep (y :: l).
Proof. reflexivity. Qed.

Lemma concat_merge (sep : string) (l1 l2 : list string) (a b : string) :
  String.concat sep (l1 ++ a :: b :: l2)
  = String.concat sep (l1 ++ (a ++ sep ++ b) :: l2).
Proof.
  induction l1 as [|x l1 IH].
  - cbn [app]. rewrite concat_cons_more.
    destruct l2 as [|c l2]; [reflexivity|].
    rewrite !concat_cons_more. now rewrite !append_assoc.
  - destruct l1 as [|y l1]; cbn [app] in *.
    + rewrite (concat_cons_more sep x a), (concat_cons_more sep x (a ++ sep ++ b)).
      now rewrite IH.
    + rewrite !(concat_cons_more sep x y). now rewrite IH.
Qed.

Lemma entries_app (keys1 keys2 : list string) (values : Values) :
  entries (keys1 ++ keys2)%list values
  = (entries keys1 values ++ entries keys2 values)%list.
Proof. unfold entries. apply flat_map_app. Qed.

Lemma entries_insert_ne (keys : list string) (values : Values) (k : string)
    (vs : list string) :
  k ∉ keys -> entries keys (<[k := vs]> values) = entries keys values.
Proof.
  unfold entries. induction keys as [|k' keys IH]; intros Hnot; [reflexivity|].
  apply not_elem_of_cons in Hnot as [Hne Hnot]. cbn [flat_map].
  rewrite IH by exact Hnot. unfold values_get.
  now rewrite lookup_insert_ne by exact Hne.
Qed.

Lemma map_keys_insert_same (values : Values) (k : string) (vs : list string) :
  is_Some (values !! k) -> map_keys (<[k := vs]> values) ≡ₚ map_keys values.
Proof.
  intros Hk. apply NoDup_Permutation; try apply NoDup_fst_map_to_list.
  intros k'. rewrite !elem_of_map_keys.
  destruct (decide (k = k')) as [<-|Hne].
  - rewrite lookup_insert_eq. split; eauto.
  - now rewrite lookup_insert_ne.
Qed.

(** The signed string of a map in which [k] has the values [v1], [v2], ...
    is that of the map in which it has the one value [v1&k=v2], ... *)
Lemma string1_merge (values : Values) (k v1 v2 : string) (rest : list string)
    (ranged ranged' : list string) (key : string) :
  values !! k = Some (v1 :: v2 :: rest) ->
  ranged ≡ₚ map_keys values ->
  ranged' ≡ₚ map_keys (<[k := (v1 ++ "&" ++ k ++ "=" ++ v2) :: rest]> values) ->
  string1 ranged' (<[k := (v1 ++ "&" ++ k ++ "=" ++ v2) :: rest]> values) key
  = string1 ranged values key.
Proof.
  intros Hk Hp Hp'.
  assert (Hkeys : sort_Strings ranged' = sort_Strings ranged).
  { apply sort_Strings_perm. rewrite Hp, Hp'. apply map_keys_insert_same. eauto. }
  rewrite !string1_join, Hkeys. f_equal.
  assert (Hin : k ∈ sort_Strings ranged).
  { unfold sort_Strings. rewrite merge_sort_Permutation, Hp.
    apply elem_of_map_keys. eauto. }
  assert (Hnodup : NoDup (sort_Strings ranged)).
  { unfold sort_Strings. rewrite merge_sort_Permutation, Hp.
    apply NoDup_fst_map_to_list. }
  apply list_elem_of_split in Hin as (l1 & l2 & Hsplit).
  rewrite Hsplit in Hnodup |- *.
  apply NoDup_app in Hnodup as (_ & Hl1 & Hnodup).
  apply NoDup_cons in Hnodup as [Hl2 _].
  assert (Hnot1 : k ∉ l1).
  { intros Hin1. apply (Hl1 k Hin1). left. }
  change (k :: l2) with ([k] ++ l2)%list.
  rewrite !entries_app.
  rewrite (entries_insert_ne l1), (entries_insert_ne l2) by assumption.
  unfold entries at 2 5. cbn [flat_map]. unfold values_get at 1 2.
  rewrite lookup_insert_eq, Hk. cbn [default from_option id map app].
  rewrite <- !app_assoc. cbn [app].
  rewrite concat_merge. now rewrite !append_assoc.
Qed.

Section Merge.

Variable rangeKeys : Values -> list string.
Hypothesis rangeKeys_perm : forall values, rangeKeys values ≡ₚ map_keys values.

(** X12: the signed string does not tell a repeated key from a value that
    spells the repetition out: replacing the first two values [v1], [v2] of
    a key [k] by the single value [v1&k=v2] leaves the set correctly signed
    (or not) as it was, although the decoder then reads another first value
    for [k]. *)
Theorem correctly_signed_merge (values : Values) (k v1 v2 : string)
    (rest : list string) (key : string) :
  k <> "sign" ->
  values !! k = Some (v1 :: v2 :: rest) ->
  correctly_signed rangeKeys
    (<[k := (v1 ++ "&" ++ k ++ "=" ++ v2) :: rest]> values) key
  = correctly_signed rangeKeys values key.
Proof.
  intros Hne Hk. unfold correctly_signed, values_get.
  rewrite lookup_insert_ne by exact Hne.
  destruct (first_nonempty (default [] (values !! "sign"))); [|reflexivity].
  rewrite delete_insert_ne by congruence.
  unfold hashSumHexBytes.
  rewrite (string1_merge (delete "sign" values) k v1 v2 rest
             (rangeKeys (delete "sign" values))); auto.
  now rewrite lookup_delete_ne by congruence.
Qed.

End Merge.

(** ** The further properties at concrete inputs *)

Example demo_full :
  out_err (demo (Some example_full)) = None /\
  out_data (demo (Some example_full))
  = mkNotifyURLData "2.0" "UTF-8" "07AED8EDC1D8DBB979FA1AE0D7A706A2" "RSA" 3
      "N1" 1 0 "ok" "B9" "1234567890200901010000000001" "20090101000000"
      "WX" "P1" "T1" "att" 100 5 30 70 1 "al".
Proof. vm_compute. split; reflexivity. Qed.

Example demo_two_attach :
  Attach (out_data (demo (Some example_two_attach))) = "a" /\
  Attach (out_data (demo (Some (<["attach" := ["a&attach=b"]]> example_two_attach))))
  = "a&attach=b" /\
  out_err (demo (Some (<["attach" := ["a&attach=b"]]> example_two_attach))) = None.
Proof. vm_compute. repeat split. Qed.

Lemma CheckAndInit_fee_check_exact_witness :
  out_err (demo (Some example_fees_90)) = Some InconsistentFees <->
  (transport_fee_of fresh example_fees_90 <> 0 \/
   product_fee_of fresh example_fees_90 <> 0) /\
  transport_fee_of fresh example_fees_90 + product_fee_of fresh example_fees_90
    <> total_fee_of fresh example_fees_90.
Proof.
  apply (CheckAndInit_fee_check_exact demo_ParseTime range_forward fresh
           example_fees_90 "secret").
  - vm_compute. reflexivity.
  - vm_compute. reflexivity.
  - vm_compute. split; [discriminate|reflexivity].
Defined.

Lemma CheckAndInit_twice_witness :
  out_err (CheckAndInit demo_ParseTime range_forward fresh
             (out_values (demo (Some example_lower_case))) "secret")
  = Some MissingSignature.
Proof.
  apply (CheckAndInit_twice demo_ParseTime range_forward fresh fresh
           example_lower_case "secret").
  vm_compute. reflexivity.
Defined.

Lemma CheckAndInit_text_error_witness :
  ("notify_id is empty" = "sign is empty" /\
   present example_no_notify_id "sign" = false) \/
  (errors_New "notify_id is empty" = SignatureMismatch /\
   correctly_signed range_forward example_no_notify_id "secret" = false) \/
  "notify_id is empty" = "transport_fee+product_fee != total_fee" \/
  (exists k, k ∈ required_keys /\ "notify_id is empty" = k ++ " is empty" /\
             present example_no_notify_id k = false).
Proof.
  apply (CheckAndInit_text_error demo_ParseTime range_forward fresh
           example_no_notify_id "secret" "notify_id is empty").
  vm_compute. reflexivity.
Defined.

Lemma CheckAndInit_number_error_witness :
  correctly_signed range_forward example_bad_mode "secret" = true /\
  "ParseInt" = "ParseInt" /\
  exists k, k ∈ int_keys /\
            first_nonempty (values_get example_bad_mode k) = Some "one" /\
            ParseInt "one" = inl (NumError "ParseInt" "one" ErrSyntax).
Proof.
  apply (CheckAndInit_number_error demo_ParseTime range_forward fresh
           example_bad_mode "secret" "ParseInt" "one" ErrSyntax).
  vm_compute. reflexivity.
Defined.

Lemma CheckAndInit_time_error_witness :
  correctly_signed range_forward example_bad_time "secret" = true /\
  exists v, first_nonempty (values_get example_bad_time "time_end") = Some v /\
            demo_ParseTime v = inl "cannot parse time".
Proof.
  apply (CheckAndInit_time_error demo_ParseTime range_forward fresh
           example_bad_time "secret" "cannot parse time").
  vm_compute. reflexivity.
Defined.

Lemma same_first_values_example : same_first_values example_signed example_extra.
Proof.
  intros k Hk. unfold recognised_keys in Hk.
  repeat (apply elem_of_cons in Hk as [->|Hk]; [vm_compute; reflexivity|]).
  now apply elem_of_nil in Hk.
Qed.

Lemma CheckAndInit_first_values_witness :
  out_err (demo (Some example_signed)) = out_err (demo (Some example_extra)) /\
  set_Signature "" (out_data (demo (Some example_signed)))
  = set_Signature "" (out_data (demo (Some example_extra))).
Proof.
  apply (CheckAndInit_first_values demo_ParseTime range_forward fresh
           example_signed example_extra "secret" "secret").
  - apply same_first_values_example.
  - vm_compute. reflexivity.
  - vm_compute. reflexivity.
Defined.

Lemma CheckAndInit_signature_shape_witness :
  out_err (demo (Some (signed "ABC" example_params))) = Some SignatureMismatch /\
  out_data (demo (Some (signed "ABC" example_params))) = fresh.
Proof.
  apply (CheckAndInit_signature_shape demo_ParseTime range_forward fresh
           (signed "ABC" example_params) "secret" "ABC").
  - vm_compute. reflexivity.
  - intros [Hlen _]. vm_compute in Hlen. discriminate Hlen.
Defined.

Lemma CheckAndInit_any_range_order_witness :
  CheckAndInit demo_ParseTime range_forward fresh (Some example_signed) "secret"
  = CheckAndInit demo_ParseTime range_backward fresh (Some example_signed) "secret".
Proof.
  apply (CheckAndInit_any_range_order demo_ParseTime range_forward range_backward).
  - apply range_forward_perm.
  - apply range_backward_perm.
Defined.

Lemma correctly_signed_merge_witness :
  correctly_signed range_forward
    (<["attach" := ["a" ++ "&" ++ "attach" ++ "=" ++ "b"]]> example_two_attach)
    "secret"
  = correctly_signed range_forward example_two_attach "secret".
Proof.
  apply (correctly_signed_merge range_forward range_forward_perm
           example_two_attach "attach" "a" "b" [] "secret").
  - discriminate.
  - vm_compute. reflexivity.
Defined.

Lemma CheckAndInit_success_record_witness :
  exists t,
    demo_ParseTime (first_value example_full "time_end") = inr t /\
    out_data (demo (Some example_full)) = decoded example_full t fresh.
Proof.
  apply (CheckAndInit_success_record demo_ParseTime range_forward fresh
           example_full "secret"); vm_compute; reflexivity.
Defined.
